(** * chat_ai: the chat server, its HTTP routes and its realtime handlers

    A shallow embedding of [src/server.js] (express routes and socket.io
    handlers) and of the revised server kept in the second document of
    [src/public/app.js] (lines 225-462), with the properties the
    specification states about them.

    External collaborators are taken as the source uses them:
    - [pool.query] (PostgreSQL): the two tables of [initDB] as lists of rows;
      whether the pool resolves or rejects a query is an input of each
      handler ([db_ok]), so every statement holds for any behaviour of the
      store.  Values are kept as the handler bound them to [$1..$n]; the
      coercion of PostgreSQL to the column types is not modelled.
    - [bcrypt.hash] / [bcrypt.compare]: functions given to the handlers, with
      [None] for a rejected promise.
    - [CURRENT_TIMESTAMP] and [new Date()]: two clock readings handed to the
      handler that uses them.
    - the event loop: the events of the connections are taken one at a
      time.  In [Server] and [Revised] a handler, its [await] included,
      runs to its end before the next event is taken; [Async] has the
      handler of [send_message] of [src/server.js] in its two halves, with
      other events taken in between. *)

From Stdlib Require Import ZArith String List Permutation Sorting.Sorted Lia.
From stdpp Require Import base decidable countable gmap strings list sorting.

Local Open Scope string_scope.
Local Open Scope Z_scope.
Local Open Scope list_scope.

(** ** JavaScript values as the handlers see them *)

Module Js.

(** The values a JSON payload field, a session property or a socket property
    holds.  A missing property reads as [JUndefined].  Numbers are the
    integers the program uses as identifiers and timestamps. *)
Inductive JsVal : Type :=
  | JUndefined
  | JNull
  | JBool (b : bool)
  | JNum (n : Z)
  | JStr (s : string).

#[global] Instance JsVal_eq_dec : EqDecision JsVal.
Proof. solve_decision. Defined.

(** Keys of a [Map] compare by value ([1] and ["1"] are different keys). *)
#[global] Instance JsVal_countable : Countable JsVal.
Proof.
  refine (inj_countable'
    (fun v => match v with
              | JUndefined => inl (inl tt)
              | JNull => inl (inr tt)
              | JBool b => inr (inl b)
              | JNum n => inr (inr (inl n))
              | JStr s => inr (inr (inr s))
              end)
    (fun x => match x with
              | inl (inl _) => JUndefined
              | inl (inr _) => JNull
              | inr (inl b) => JBool b
              | inr (inr (inl n)) => JNum n
              | inr (inr (inr s)) => JStr s
              end) _).
  intros []; reflexivity.
Defined.

(** [ToBoolean]: what [!v] and [if (v)] test. *)
Definition truthy (v : JsVal) : bool :=
  match v with
  | JUndefined | JNull => false
  | JBool b => b
  | JNum n => negb (n =? 0)
  | JStr s => negb (String.eqb s "")
  end.

(** The [length] of a JavaScript string: the number of its UTF-16 code
    units.  The strings here are the UTF-8 bytes of the text; a byte below
    128 or a lead byte of a sequence of 2 or 3 bytes starts one code unit,
    a lead byte of a sequence of 4 bytes starts a surrogate pair, and a
    continuation byte starts none. *)
Definition utf16_units (b : Ascii.ascii) : nat :=
  let n := Ascii.nat_of_ascii b in
  if Nat.ltb n 128 then 1%nat
  else if Nat.ltb n 192 then 0%nat
  else if Nat.ltb n 240 then 1%nat
  else 2%nat.

Fixpoint utf16_length (s : string) : nat :=
  match s with
  | EmptyString => 0%nat
  | String b s' => (utf16_units b + utf16_length s')%nat
  end.

(** [v.length < n]: a string compares its length; any other truthy value
    has no [length] property, and [undefined < n] is [false]. *)
Definition length_lt (v : JsVal) (n : nat) : bool :=
  match v with
  | JStr s => Nat.ltb (utf16_length s) n
  | _ => false
  end.

(** A value bound to a query parameter: [undefined] is sent as [NULL]. *)
Definition is_nullish (v : JsVal) : bool :=
  match v with
  | JUndefined | JNull => true
  | _ => false
  end.

(** The body of a JSON object response: its properties in the order of the
    object literal. *)
Definition JsObject : Type := list (string * JsVal).

Fixpoint get_prop (o : JsObject) (k : string) : JsVal :=
  match o with
  | [] => JUndefined
  | (k', v) :: o' => if String.eqb k' k then v else get_prop o' k
  end.

Fixpoint has_prop (o : JsObject) (k : string) : bool :=
  match o with
  | [] => false
  | (k', _) :: o' => String.eqb k' k || has_prop o' k
  end.

End Js.
Export Js.

(** ** The persistence store: the tables of [initDB] *)

Module Store.

(** [users (id SERIAL PRIMARY KEY, username UNIQUE NOT NULL, password)]. *)
Record UserRow : Type := mkUser {
  u_id : Z;
  u_username : JsVal;
  u_password : string
}.

(** [messages (id SERIAL, user_id, username, message, created_at TIMESTAMP
    DEFAULT CURRENT_TIMESTAMP)]. *)
Record MessageRow : Type := mkMessage {
  m_id : Z;
  m_user_id : JsVal;
  m_username : JsVal;
  m_message : JsVal;
  m_created_at : Z
}.

Record Db : Type := mkDb {
  users : list UserRow;
  next_user_id : Z;
  messages : list MessageRow;
  next_message_id : Z
}.

(** The database right after [initDB]: both tables empty, both sequences
    at 1. *)
Definition empty_db : Db := mkDb [] 1 [] 1.

Inductive QueryError : Type :=
  | UniqueViolation   (* error.code === '23505' *)
  | OtherError.

(** [SELECT * FROM users WHERE username = $1], [rows[0]].  A [NULL]
    parameter matches no row.  Rows are matched on the value that was
    bound when they were stored: a parameter that is not a string matches
    no row stored from a string, where PostgreSQL compares the texts. *)
Definition select_user (db : Db) (name : JsVal) : option UserRow :=
  if is_nullish name then None
  else find (fun u => bool_decide (u_username u = name)) (users db).

(** [INSERT INTO users (username, password) VALUES ($1, $2)
    RETURNING id, username].  The sequence moves on an accepted insert
    only, so the ids here are consecutive; PostgreSQL takes a value of the
    sequence for a refused insert too and leaves gaps. *)
Definition insert_user (db_ok : bool) (db : Db) (name : JsVal) (hash : string)
  : QueryError + (Db * UserRow) :=
  if negb db_ok then inl OtherError
  else if is_nullish name then inl OtherError
  else match select_user db name with
       | Some _ => inl UniqueViolation
       | None =>
           let row := mkUser (next_user_id db) name hash in
           inr (mkDb (users db ++ [row]) (next_user_id db + 1)
                     (messages db) (next_message_id db), row)
       end.

(** [INSERT INTO messages (user_id, username, message) VALUES ($1, $2, $3)]:
    [id] comes from the sequence and [created_at] from the column default,
    the clock of the database [db_now].  [db_ok] says whether the pool
    resolves the query: the store refuses it for reasons the handlers do
    not look at (a lost connection, a constraint of the schema such as
    [NOT NULL], the length of [VARCHAR(50)] or the reference of [user_id]
    to [users]).  The sequence moves on an accepted insert only. *)
Definition insert_message (db_ok : bool) (db_now : Z) (db : Db)
    (uid uname msg : JsVal) : option (Db * MessageRow) :=
  if negb db_ok then None
  else
    let row := mkMessage (next_message_id db) uid uname msg db_now in
    Some (mkDb (users db) (next_user_id db)
               (messages db ++ [row]) (next_message_id db + 1), row).

(** What [SELECT username, message, created_at] keeps of a row. *)
Record MessageView : Type := mkView {
  v_username : JsVal;
  v_message : JsVal;
  v_created_at : Z
}.

Definition view_of (r : MessageRow) : MessageView :=
  mkView (m_username r) (m_message r) (m_created_at r).

(** [ORDER BY created_at DESC]: newer rows first. *)
Definition newer_first (a b : MessageView) : Prop :=
  v_created_at b <= v_created_at a.

#[global] Instance newer_first_dec a b : Decision (newer_first a b).
Proof. unfold newer_first. apply _. Defined.

#[global] Instance newer_first_total : Total newer_first.
Proof. intros a b. unfold newer_first. lia. Qed.

#[global] Instance newer_first_trans : Transitive newer_first.
Proof. intros a b c. unfold newer_first. lia. Qed.

(** Ascending creation time: older rows first. *)
Definition older_first (a b : MessageView) : Prop :=
  v_created_at a <= v_created_at b.

(** [SELECT username, message, created_at FROM messages
     ORDER BY created_at DESC LIMIT 100]. *)
Definition select_recent_messages (db : Db) : list MessageView :=
  take 100 (merge_sort newer_first (map view_of (messages db))).

End Store.
Export Store.

(** ** What the HTTP layer carries *)

Module Http.

(** [req.session]: the two properties the routes read and write.  A fresh
    or destroyed session has neither. *)
Record Session : Type := mkSession {
  sess_userId : JsVal;
  sess_username : JsVal
}.

Definition no_session : Session := mkSession JUndefined JUndefined.

(** [req.body] of [/register] and [/login]. *)
Record Credentials : Type := mkCredentials {
  username : JsVal;
  password : JsVal
}.

Inductive Body : Type :=
  | BObject (o : JsObject)
  | BRows (rows : list MessageView).

Record Response : Type := mkResponse {
  status : Z;
  body : Body
}.

(** [res.status(code).json({ error: msg })]. *)
Definition error_response (code : Z) (msg : string) : Response :=
  mkResponse code (BObject [("error", JStr msg)]).

(** [res.json(o)]: status 200. *)
Definition json_response (o : JsObject) : Response :=
  mkResponse 200 (BObject o).

Definition body_has (r : Response) (k : string) : bool :=
  match body r with
  | BObject o => has_prop o k
  | BRows _ => false
  end.

Definition body_prop (r : Response) (k : string) : JsVal :=
  match body r with
  | BObject o => get_prop o k
  | BRows _ => JUndefined
  end.

End Http.
Export Http.

(** ** What the realtime channel carries *)

Module Realtime.

(** [socket.id]. *)
Abbreviation ConnId := string (only parsing).

(** The two properties the handlers keep on the socket object; both are
    [undefined] on a new connection. *)
Record Socket : Type := mkSocket {
  sock_userId : JsVal;
  sock_username : JsVal
}.

Definition new_socket : Socket := mkSocket JUndefined JUndefined.

(** The argument of an [authenticate] event.  [AuthNullish] is a missing,
    [undefined] or [null] argument, on which a property access throws;
    [AuthObject u n] is an object whose [userId] and [username] read as [u]
    and [n] (a missing property reads as [JUndefined], and so does every
    property of a primitive argument). *)
Inductive AuthPayload : Type :=
  | AuthNullish
  | AuthObject (userId username : JsVal).

(** The argument of a [send_message] event, likewise. *)
Inductive SendPayload : Type :=
  | SendNullish
  | SendObject (message : JsVal).

(** Events the server sends to clients. *)
Inductive ServerEvent : Type :=
  | EvError (message : string)            (* 'error', { message } *)
  | EvAuthError (message : string)        (* 'auth_error', { message } *)
  | EvAuthenticated (success : bool)      (* 'authenticated', { success } *)
  | EvNewMessage (username message : JsVal) (created_at : Z).
                                          (* 'new_message', { ... } *)

(** What a handler does to the outside, in program order. *)
Inductive Effect : Type :=
  | Emit (to : ConnId) (ev : ServerEvent)     (* socket.emit(...) *)
  | Broadcast (ev : ServerEvent)              (* io.emit(...) *)
  | InsertQuery (uid uname msg : JsVal)       (* pool.query('INSERT INTO messages ...') *)
  | ForceDisconnect (c : ConnId).             (* oldSocket.disconnect(true) *)

#[global] Instance ServerEvent_eq_dec : EqDecision ServerEvent.
Proof. solve_decision. Defined.

#[global] Instance Effect_eq_dec : EqDecision Effect.
Proof. solve_decision. Defined.

Definition is_broadcast (fx : Effect) : bool :=
  match fx with Broadcast _ => true | _ => false end.

Definition is_query (fx : Effect) : bool :=
  match fx with InsertQuery _ _ _ => true | _ => false end.

Definition is_emit_to_other (sender : ConnId) (fx : Effect) : bool :=
  match fx with
  | Emit c _ => negb (String.eqb c sender)
  | _ => false
  end.

(** What the clients send, and what the transport reports.  A
    [SendMessage] carries what the outside answers while its handler runs:
    whether the pool resolves the insert, the clock of the database and the
    clock of the server.  A handler runs to its end before the next event is
    taken. *)
Inductive Event : Type :=
  | Connect (c : ConnId)
  | Authenticate (c : ConnId) (data : AuthPayload)
  | SendMessage (c : ConnId) (data : SendPayload)
      (db_ok : bool) (db_now js_now : Z)
  | Disconnect (c : ConnId).

(** The outcome of an event: the handler returned, or it threw and nothing
    caught it. *)
Inductive Outcome (S : Type) : Type :=
  | Done (st : S) (fx : list Effect)
  | Uncaught (error : string).
Arguments Done {S} st fx.
Arguments Uncaught {S} error.

End Realtime.
Export Realtime.

(** ** [src/server.js]: the routes *)

Module Server.

Section Routes.

(** [bcrypt.hash(password, 10)] and [bcrypt.compare(password, hash)];
    [None] is a rejected promise. *)
Variable bcrypt_hash : JsVal -> option string.
Variable bcrypt_compare : JsVal -> string -> option bool.

(** [app.post('/register')], lines 55-84. *)
Definition register (db_ok : bool) (db : Db) (sess : Session)
    (req : Credentials) : Db * Session * Response :=
  if negb (truthy (username req)) || negb (truthy (password req)) then
    (db, sess, error_response 400 "Username and password required")
  else if length_lt (username req) 3 || length_lt (password req) 6 then
    (db, sess, error_response 400 "Username min 3 chars, password min 6 chars")
  else
    match bcrypt_hash (password req) with
    | None => (db, sess, error_response 500 "Server error")
    | Some hashedPassword =>
        match insert_user db_ok db (username req) hashedPassword with
        | inl UniqueViolation =>
            (db, sess, error_response 400 "Username already exists")
        | inl OtherError => (db, sess, error_response 500 "Server error")
        | inr (db', row) =>
            (db',
             mkSession (JNum (u_id row)) (u_username row),
             json_response [("success", JBool true);
                            ("username", u_username row)])
        end
    end.

(** [app.post('/login')], lines 86-110. *)
Definition login (db_ok : bool) (db : Db) (sess : Session)
    (req : Credentials) : Session * Response :=
  if negb db_ok then (sess, error_response 500 "Server error")
  else
    match select_user db (username req) with
    | None => (sess, error_response 401 "Invalid credentials")
    | Some user =>
        match bcrypt_compare (password req) (u_password user) with
        | None => (sess, error_response 500 "Server error")
        | Some false => (sess, error_response 401 "Invalid credentials")
        | Some true =>
            (mkSession (JNum (u_id user)) (u_username user),
             json_response [("success", JBool true);
                            ("username", u_username user)])
        end
    end.

End Routes.

(** [app.post('/logout')], lines 112-115. *)
Definition logout (sess : Session) : Session * Response :=
  (no_session, json_response [("success", JBool true)]).

(** [app.get('/check-auth')], lines 117-123. *)
Definition check_auth (sess : Session) : Response :=
  if truthy (sess_userId sess) then
    json_response [("authenticated", JBool true);
                   ("username", sess_username sess)]
  else json_response [("authenticated", JBool false)].

(** [app.get('/messages')], lines 125-139. *)
Definition get_messages (db_ok : bool) (db : Db) (sess : Session) : Response :=
  if negb (truthy (sess_userId sess)) then
    error_response 401 "Not authenticated"
  else if negb db_ok then error_response 500 "Server error"
  else mkResponse 200 (BRows (reverse (select_recent_messages db))).

(** *** The socket handlers, lines 142-175 *)

(** The live connections with their socket objects, and the database. *)
Record State : Type := mkState {
  sockets : gmap ConnId Socket;
  db : Db
}.

(** The server when it starts on the database [d]: no connection yet. *)
Definition start (d : Db) : State := mkState ∅ d.

Definition init : State := start empty_db.

(** [socket.on('authenticate')], lines 145-148. *)
Definition authenticate (socket : Socket) (sessionData : AuthPayload)
  : option Socket :=
  match sessionData with
  | AuthNullish => None      (* TypeError: cannot read properties *)
  | AuthObject userId username => Some (mkSocket userId username)
  end.

(** [socket.on('send_message')], lines 150-170, when nothing is taken
    during its [await]: [socket.username] at line 162 is then what it was
    at line 158. *)
Definition send_message (c : ConnId) (socket : Socket) (d : Db)
    (data : SendPayload) (db_ok : bool) (db_now js_now : Z)
  : Db * list Effect :=
  if negb (truthy (sock_userId socket)) then
    (d, [Emit c (EvError "Not authenticated")])
  else
    match data with
    | SendNullish =>
        (* [data.message] throws inside the [try] *)
        (d, [Emit c (EvError "Failed to send message")])
    | SendObject message =>
        let q := InsertQuery (sock_userId socket) (sock_username socket) message in
        match insert_message db_ok db_now d
                (sock_userId socket) (sock_username socket) message with
        | Some (d', _) =>
            (d', [q; Broadcast (EvNewMessage (sock_username socket) message js_now)])
        | None =>
            (d, [q; Emit c (EvError "Failed to send message")])
        end
    end.

(** The dispatch of one event to the handlers of its connection.  An event
    for a connection that is not live reaches no handler. *)
Definition step (st : State) (e : Event) : Outcome State :=
  match e with
  | Connect c => Done (mkState (<[c := new_socket]> (sockets st)) (db st)) []
  | Authenticate c data =>
      match sockets st !! c with
      | None => Done st []
      | Some socket =>
          match authenticate socket data with
          | None => Uncaught "TypeError"
          | Some socket' =>
              Done (mkState (<[c := socket']> (sockets st)) (db st)) []
          end
      end
  | SendMessage c data db_ok db_now js_now =>
      match sockets st !! c with
      | None => Done st []
      | Some socket =>
          let '(d', fx) := send_message c socket (db st) data db_ok db_now js_now in
          Done (mkState (sockets st) d') fx
      end
  | Disconnect c =>
      (* the handler only logs *)
      Done (mkState (delete c (sockets st)) (db st)) []
  end.

(** A run of the server over the events in their order of arrival; an
    uncaught exception ends the process. *)
Fixpoint run (st : State) (es : list Event) : Outcome State :=
  match es with
  | [] => Done st []
  | e :: es' =>
      match step st e with
      | Uncaught err => Uncaught err
      | Done st' fx =>
          match run st' es' with
          | Uncaught err => Uncaught err
          | Done st'' fx' => Done st'' (fx ++ fx')
          end
      end
  end.

(** Whether the last [authenticate] of connection [c] since it connected
    supplied a truthy [userId]: the only thing the gate of [send_message]
    looks at. *)
Fixpoint authenticated_after (c : ConnId) (es : list Event) (acc : bool) : bool :=
  match es with
  | [] => acc
  | Connect c' :: es' =>
      authenticated_after c es' (if String.eqb c' c then false else acc)
  | Authenticate c' (AuthObject u _) :: es' =>
      authenticated_after c es' (if String.eqb c' c then truthy u else acc)
  | _ :: es' => authenticated_after c es' acc
  end.

(** No [authenticate] of [c] in [es] supplied a truthy [userId]. *)
Definition no_handshake (c : ConnId) (es : list Event) : Prop :=
  ∀ u n, In (Authenticate c (AuthObject u n)) es → truthy u = false.


(** The database after the insert of [row] into [messages]. *)
Definition with_message (d : Db) (row : MessageRow) : Db :=
  mkDb (users d) (next_user_id d) (messages d ++ [row]) (next_message_id d + 1).

End Server.

(** ** The revised server: [src/public/app.js], second document
       (lines 225-462) *)

Module Revised.

Section Routes.

Variable bcrypt_hash : JsVal -> option string.
Variable bcrypt_compare : JsVal -> string -> option bool.

(** [app.post('/register')], lines 294-327. *)
Definition register (db_ok : bool) (db : Db) (sess : Session)
    (req : Credentials) : Db * Session * Response :=
  if negb (truthy (username req)) || negb (truthy (password req)) then
    (db, sess, error_response 400 "Username and password required")
  else if length_lt (username req) 3 || length_lt (password req) 6 then
    (db, sess, error_response 400 "Username min 3 chars, password min 6 chars")
  else
    match bcrypt_hash (password req) with
    | None => (db, sess, error_response 500 "Server error")
    | Some hashedPassword =>
        match insert_user db_ok db (username req) hashedPassword with
        | inl UniqueViolation =>
            (db, sess, error_response 400 "Username already exists")
        | inl OtherError => (db, sess, error_response 500 "Server error")
        | inr (db', row) =>
            (db',
             mkSession (JNum (u_id row)) (u_username row),
             json_response [("success", JBool true);
                            ("username", u_username row);
                            ("userId", JNum (u_id row))])
        end
    end.

(** [app.post('/login')], lines 329-357. *)
Definition login (db_ok : bool) (db : Db) (sess : Session)
    (req : Credentials) : Session * Response :=
  if negb db_ok then (sess, error_response 500 "Server error")
  else
    match select_user db (username req) with
    | None => (sess, error_response 401 "Invalid credentials")
    | Some user =>
        match bcrypt_compare (password req) (u_password user) with
        | None => (sess, error_response 500 "Server error")
        | Some false => (sess, error_response 401 "Invalid credentials")
        | Some true =>
            (mkSession (JNum (u_id user)) (u_username user),
             json_response [("success", JBool true);
                            ("username", u_username user);
                            ("userId", JNum (u_id user))])
        end
    end.

End Routes.

(** [app.get('/check-auth')], lines 364-374. *)
Definition check_auth (sess : Session) : Response :=
  if truthy (sess_userId sess) then
    json_response [("authenticated", JBool true);
                   ("username", sess_username sess);
                   ("userId", sess_userId sess)]
  else json_response [("authenticated", JBool false)].

(** *** The socket handlers, lines 393-457 *)

(** The live connections ([io.sockets.sockets]), the registry
    [userSockets] and the database. *)
Record State : Type := mkState {
  sockets : gmap ConnId Socket;
  userSockets : gmap JsVal ConnId;
  db : Db
}.

Definition init : State := mkState ∅ ∅ empty_db.

(** [socket.on('disconnect')], lines 448-456: the registry entry goes only
    if it still names this socket. *)
Definition on_disconnect (c : ConnId) (socket : Socket)
    (reg : gmap JsVal ConnId) : gmap JsVal ConnId :=
  if truthy (sock_userId socket) then
    if bool_decide (reg !! sock_userId socket = Some c)
    then delete (sock_userId socket) reg
    else reg
  else reg.

(** The transport of [c] closes: the socket leaves [io.sockets.sockets] and
    its [disconnect] handler runs. *)
Definition close (st : State) (c : ConnId) : State :=
  match sockets st !! c with
  | None => st
  | Some socket =>
      mkState (delete c (sockets st))
              (on_disconnect c socket (userSockets st))
              (db st)
  end.

(** Lines 402-409: the socket registered for [userId], when there is one,
    it is still live and it is not this one, is disconnected. *)
Definition supersede (st : State) (c : ConnId) (userId : JsVal)
  : State * list Effect :=
  match userSockets st !! userId with
  | Some oldSocketId =>
      match sockets st !! oldSocketId with
      | Some _ =>
          if negb (String.eqb oldSocketId c)
          then (close st oldSocketId, [ForceDisconnect oldSocketId])
          else (st, [])
      | None => (st, [])
      end
  | None => (st, [])
  end.

(** [socket.on('authenticate')], lines 399-420. *)
Definition authenticate (st : State) (c : ConnId) (data : AuthPayload)
  : State * list Effect :=
  match data with
  | AuthObject userId username =>
      if truthy userId && truthy username then
        let '(st1, fx) := supersede st c userId in
        (mkState (<[c := mkSocket userId username]> (sockets st1))
                 (<[userId := c]> (userSockets st1))
                 (db st1),
         fx ++ [Emit c (EvAuthenticated true)])
      else (st, [Emit c (EvAuthError "Invalid authentication data")])
  | AuthNullish =>
      (st, [Emit c (EvAuthError "Invalid authentication data")])
  end.

(** [socket.on('send_message')], lines 422-446. *)
Definition send_message (c : ConnId) (socket : Socket) (d : Db)
    (data : SendPayload) (db_ok : bool) (db_now : Z)
  : Db * list Effect :=
  if negb (truthy (sock_userId socket)) || negb (truthy (sock_username socket)) then
    (d, [Emit c (EvError "Not authenticated")])
  else
    match data with
    | SendNullish => (d, [Emit c (EvError "Failed to send message")])
    | SendObject message =>
        let q := InsertQuery (sock_userId socket) (sock_username socket) message in
        match insert_message db_ok db_now d
                (sock_userId socket) (sock_username socket) message with
        | Some (d', row) =>
            (d', [q; Broadcast (EvNewMessage (m_username row) (m_message row)
                                             (m_created_at row))])
        | None =>
            (d, [q; Emit c (EvError "Failed to send message")])
        end
    end.

Definition step (st : State) (e : Event) : State * list Effect :=
  match e with
  | Connect c =>
      (mkState (<[c := new_socket]> (sockets st)) (userSockets st) (db st), [])
  | Authenticate c data =>
      match sockets st !! c with
      | None => (st, [])
      | Some _ => authenticate st c data
      end
  | SendMessage c data db_ok db_now _ =>
      match sockets st !! c with
      | None => (st, [])
      | Some socket =>
          let '(d', fx) := send_message c socket (db st) data db_ok db_now in
          (mkState (sockets st) (userSockets st) d', fx)
      end
  | Disconnect c => (close st c, [])
  end.

Fixpoint run (st : State) (es : list Event) : State * list Effect :=
  match es with
  | [] => (st, [])
  | e :: es' =>
      let '(st', fx) := step st e in
      let '(st'', fx') := run st' es' in
      (st'', (fx ++ fx'))
  end.

(** [app.post('/logout')], lines 359-362. *)
Definition logout (sess : Session) : Session * Response :=
  (no_session, json_response [("success", JBool true)]).

(** [app.get('/messages')], lines 376-390. *)
Definition get_messages (db_ok : bool) (db : Db) (sess : Session) : Response :=
  if negb (truthy (sess_userId sess)) then
    error_response 401 "Not authenticated"
  else if negb db_ok then error_response 500 "Server error"
  else mkResponse 200 (BRows (reverse (select_recent_messages db))).

End Revised.

(** ** The registry of the revised server *)

Module Registry.

(** Every live socket that holds a truthy [userId] is the one the registry
    names for that user. *)
Definition registered (st : Revised.State) : Prop :=
  ∀ c s, Revised.sockets st !! c = Some s →
         truthy (sock_userId s) = true →
         Revised.userSockets st !! sock_userId s = Some c.

(** [data && data.userId && data.username], the test of line 400. *)
Definition valid_payload (data : AuthPayload) : bool :=
  match data with
  | AuthNullish => false
  | AuthObject u n => truthy u && truthy n
  end.

(** No [authenticate] of [c] in [es] came with a truthy [userId] and a
    truthy [username]. *)
Definition no_valid_handshake (c : ConnId) (es : list Event) : Prop :=
  ∀ u n, In (Authenticate c (AuthObject u n)) es →
         truthy u && truthy n = false.

End Registry.

(** ** The accounts over a series of registrations *)

Module Accounts.

(** What the schema of [users] keeps: usernames are not null and unique;
    ids are unique, taken from a sequence that started at 1 and is ahead
    of every id handed out. *)
Definition users_wf (d : Db) : Prop :=
  NoDup (map u_username (users d)) ∧
  NoDup (map u_id (users d)) ∧
  1 <= next_user_id d ∧
  Forall (λ u, is_nullish (u_username u) = false ∧
               1 <= u_id u < next_user_id d) (users d).

Section Registrations.

Variable bcrypt_hash : JsVal -> option string.



End Registrations.

End Accounts.

(** ** The history as a log *)

Module History.

(** Strictly increasing creation time: what a table filled in the order of
    a clock that moves between two inserts looks like. *)
Definition strictly_older (a b : MessageView) : Prop :=
  v_created_at a < v_created_at b.

(** The rows of the table as [GET /messages] shows them. *)
Definition table (d : Db) : list MessageView := map view_of (messages d).

(** The [username] and [message] of a [new_message] broadcast, and of a
    stored row. *)
Definition broadcast_of (fx : Effect) : option (JsVal * JsVal) :=
  match fx with
  | Broadcast (EvNewMessage u m _) => Some (u, m)
  | _ => None
  end.

Definition broadcasts (fx : list Effect) : list (JsVal * JsVal) :=
  omap broadcast_of fx.

Definition stored_as (r : MessageRow) : JsVal * JsVal :=
  (m_username r, m_message r).

(** Every socket that passes the gate holds an identity that an
    [authenticate] event of [hist] supplied on that connection. *)
Definition bound_by (hist : list Event) (st : Server.State) : Prop :=
  ∀ c s, Server.sockets st !! c = Some s →
         truthy (sock_userId s) = true →
         In (Authenticate c (AuthObject (sock_userId s) (sock_username s))) hist.

End History.

(** ** The page scripts: what the browser side sends

    The two page scripts, as far as they drive the socket: the variables
    they keep, the handlers of the socket events and of the form, the
    events they emit and the alerts they raise.  What they draw is left
    out.  [String.prototype.trim] is a function given to the
    handlers. *)

Module Page.

(** What a page emits on its socket, and the alerts it raises. *)
Inductive ClientEmit : Type :=
  | EmitAuthenticate (userId username : JsVal)  (* 'authenticate', { userId, username } *)
  | EmitSendMessage (message : string).         (* 'send_message', { message } *)

Inductive Alert : Type :=
  | AlertNoConnection     (* no connection to the server *)
  | AlertConnecting       (* still connecting, try again *)
  | AlertAuthError        (* authentication error *)
  | AlertServerError.     (* the 'error' event of the server *)

Inductive Output : Type :=
  | ToServer (e : ClientEmit)
  | ShowAlert (a : Alert).

#[global] Instance ClientEmit_eq_dec : EqDecision ClientEmit.
Proof. solve_decision. Defined.

#[global] Instance Alert_eq_dec : EqDecision Alert.
Proof. solve_decision. Defined.

#[global] Instance Output_eq_dec : EqDecision Output.
Proof. solve_decision. Defined.

(** What happens to a page: the answers to its requests, the events of its
    socket, and what the user does. *)
Inductive Input : Type :=
  | Submitted (r : Response)      (* the answer to [/login] or [/register] *)
  | AuthChecked (r : Response)    (* the answer to [/check-auth] *)
  | Connected                     (* 'connect' *)
  | Authenticated                 (* 'authenticated' *)
  | AuthError                     (* 'auth_error' *)
  | Disconnected                  (* 'disconnect' *)
  | ServerError                   (* 'error' *)
  | Typed (s : string)            (* the user edits the message box *)
  | SendClicked                   (* the send button, or Enter *)
  | LogoutClicked (fetch_ok : bool).

(** [response.ok]. *)
Definition response_ok (r : Response) : bool :=
  (200 <=? status r) && (status r <=? 299).

(** [data.key] of [data = await response.json()]. *)
Definition data_prop (r : Response) (k : string) : JsVal := body_prop r k.

(** The event as the server receives it on connection [c]. *)
Definition to_event (c : ConnId) (e : ClientEmit)
    (db_ok : bool) (db_now js_now : Z) : Event :=
  match e with
  | EmitAuthenticate u n => Authenticate c (AuthObject u n)
  | EmitSendMessage m => SendMessage c (SendObject (JStr m)) db_ok db_now js_now
  end.

Definition is_send (o : Output) : bool :=
  match o with ToServer (EmitSendMessage _) => true | _ => false end.

Definition is_authenticate (o : Output) : bool :=
  match o with ToServer (EmitAuthenticate _ _) => true | _ => false end.

End Page.
Export Page.

(** *** [src/unnamed/part_000]: the page that waits for the handshake *)

Module Client.

(** [currentUser], [currentUserId], [socket] (none, or the socket with its
    flag [connected]), [socketAuthenticated] and the text of the message
    box. *)
Record State : Type := mkState {
  currentUser : JsVal;
  currentUserId : JsVal;
  socket : option bool;
  socketAuthenticated : bool;
  messageInput : string
}.

(** The page when the script has run: lines 1-4 and 145. *)
Definition load : State := mkState JNull JNull None false "".

(** [initSocket], lines 147-217: a connected socket is kept, anything else
    is replaced by a new socket. *)
Definition initSocket (p : State) : State :=
  match socket p with
  | Some true => p
  | _ => mkState (currentUser p) (currentUserId p) (Some false)
                 (socketAuthenticated p) (messageInput p)
  end.

(** Lines 45-49 and 320-324: the identity of the answer is kept and the
    socket is opened. *)
Definition signed_in (p : State) (r : Response) : State :=
  initSocket (mkState (data_prop r "username") (data_prop r "userId")
                      (socket p) (socketAuthenticated p) (messageInput p)).

Section Handlers.

Variable trim : string -> string.

(** [sendMessage], lines 115-136. *)
Definition sendMessage (p : State) : State * list Output :=
  let message := trim (messageInput p) in
  if String.eqb message "" then (p, [])
  else
    match socket p with
    | Some true =>
        if negb (socketAuthenticated p) then (p, [ShowAlert AlertConnecting])
        else (mkState (currentUser p) (currentUserId p) (socket p)
                      (socketAuthenticated p) "",
              [ToServer (EmitSendMessage message)])
    | _ => (p, [ShowAlert AlertNoConnection])
    end.

(** The handlers, by what sets them off.  The events of the socket reach
    the handlers of the current socket only. *)
Definition step (p : State) (i : Input) : State * list Output :=
  match i with
  | Submitted r =>                                  (* lines 26-56 *)
      if response_ok r then (signed_in p r, []) else (p, [])
  | AuthChecked r =>                                (* lines 314-334 *)
      if truthy (data_prop r "authenticated") then (signed_in p r, [])
      else (p, [])
  | Connected =>                                    (* lines 169-183 *)
      match socket p with
      | None => (p, [])
      | Some _ =>
          (mkState (currentUser p) (currentUserId p) (Some true) false
                   (messageInput p),
           if truthy (currentUser p) && truthy (currentUserId p)
           then [ToServer (EmitAuthenticate (currentUserId p) (currentUser p))]
           else [])
      end
  | Authenticated =>                                (* lines 185-189 *)
      match socket p with
      | None => (p, [])
      | Some _ =>
          (mkState (currentUser p) (currentUserId p) (socket p) true
                   (messageInput p), [])
      end
  | AuthError =>                                    (* lines 191-195 *)
      match socket p with
      | None => (p, [])
      | Some _ =>
          (mkState (currentUser p) (currentUserId p) (socket p) false
                   (messageInput p), [ShowAlert AlertAuthError])
      end
  | Disconnected =>                                 (* lines 197-201 *)
      match socket p with
      | None => (p, [])
      | Some _ =>
          (mkState (currentUser p) (currentUserId p) (Some false) false
                   (messageInput p), [])
      end
  | ServerError =>                                  (* lines 213-216 *)
      match socket p with
      | None => (p, [])
      | Some _ => (p, [ShowAlert AlertServerError])
      end
  | Typed s =>
      (mkState (currentUser p) (currentUserId p) (socket p)
               (socketAuthenticated p) s, [])
  | SendClicked => sendMessage p
  | LogoutClicked fetch_ok =>                       (* lines 85-104 *)
      if fetch_ok then (mkState JNull JNull None false (messageInput p), [])
      else (p, [])
  end.

Fixpoint run (p : State) (ins : list Input) : State * list Output :=
  match ins with
  | [] => (p, [])
  | i :: ins' =>
      let '(p', out) := step p i in
      let '(p'', out') := run p' ins' in
      (p'', out ++ out')
  end.

End Handlers.

End Client.

(** *** [src/public/app.js], lines 1-224: the page without a handshake *)

Module OldClient.

(** [currentUser], [socket] (none, or the socket with its flag
    [connected]) and the text of the message box. *)
Record State : Type := mkState {
  currentUser : JsVal;
  socket : option bool;
  messageInput : string
}.

Definition load : State := mkState JNull None "".

(** Lines 44-47 and 214-217: [currentUser] is set and [initSocket], lines
    121-135, opens a new socket. *)
Definition signed_in (p : State) (r : Response) : State :=
  mkState (data_prop r "username") (Some false) (messageInput p).

Section Handlers.

Variable trim : string -> string.

(** [sendMessage], lines 104-112. *)
Definition sendMessage (p : State) : State * list Output :=
  let message := trim (messageInput p) in
  if negb (String.eqb message "") && bool_decide (is_Some (socket p)) then
    (mkState (currentUser p) (socket p) "",
     [ToServer (EmitSendMessage message)])
  else (p, []).

Definition step (p : State) (i : Input) : State * list Output :=
  match i with
  | Submitted r =>                                  (* lines 25-54 *)
      if response_ok r then (signed_in p r, []) else (p, [])
  | AuthChecked r =>                                (* lines 208-224 *)
      if truthy (data_prop r "authenticated") then (signed_in p r, [])
      else (p, [])
  | Connected =>                                    (* lines 124-126 *)
      match socket p with
      | None => (p, [])
      | Some _ => (mkState (currentUser p) (Some true) (messageInput p), [])
      end
  | Disconnected =>
      match socket p with
      | None => (p, [])
      | Some _ => (mkState (currentUser p) (Some false) (messageInput p), [])
      end
  | Authenticated | AuthError | ServerError => (p, [])   (* no handler, or a log *)
  | Typed s => (mkState (currentUser p) (socket p) s, [])
  | SendClicked => sendMessage p
  | LogoutClicked fetch_ok =>                       (* lines 83-93 *)
      match socket p with
      | Some _ =>
          if fetch_ok then (mkState JNull (Some false) (messageInput p), [])
          else (p, [])
      | None => (p, [])     (* [socket.disconnect()] throws into the [catch] *)
      end
  end.

Fixpoint run (p : State) (ins : list Input) : State * list Output :=
  match ins with
  | [] => (p, [])
  | i :: ins' =>
      let '(p', out) := step p i in
      let '(p'', out') := run p' ins' in
      (p'', out ++ out')
  end.

End Handlers.

End OldClient.

(** ** The pages and the servers together *)

Module Wire.

(** The events a server receives on connection [c] from what a page
    emitted, the store accepting every insert. *)
Definition deliver (c : ConnId) (db_now js_now : Z) (out : list Output)
  : list Event :=
  omap (λ o, match o with
             | ToServer e => Some (to_event c e true db_now js_now)
             | ShowAlert _ => None
             end) out.

(** The effects [src/server.js] has: the insert, the [error] event and the
    [new_message] broadcast. *)
Definition plain_effect (fx : Effect) : bool :=
  match fx with
  | InsertQuery _ _ _ => true
  | Emit _ (EvError _) => true
  | Broadcast (EvNewMessage _ _ _) => true
  | _ => false
  end.

(** An answer of a route of [src/server.js] as a page receives it. *)
Inductive from_server_js : Input -> Prop :=
  | answer_register hash db_ok d sess req :
      from_server_js (Submitted (snd (Server.register hash db_ok d sess req)))
  | answer_login compare db_ok d sess req :
      from_server_js (Submitted (snd (Server.login compare db_ok d sess req)))
  | answer_check_auth sess :
      from_server_js (AuthChecked (Server.check_auth sess)).

(** What a page can receive when its server is [src/server.js]: answers of
    its routes, and no [authenticated] or [auth_error] event. *)
Definition server_js_feed (i : Input) : Prop :=
  match i with
  | Submitted _ | AuthChecked _ => from_server_js i
  | Authenticated | AuthError => False
  | _ => True
  end.

End Wire.

(** ** [src/server.js]: the socket handlers with their [await]

    [socket.on('send_message')] is an [async] function: it runs up to
    [await pool.query(...)], line 156, gives the event loop back, and goes
    on from line 161 when the pool answers.  Other events are taken in
    between.  Here the handler is in its two halves; [Server.send_message]
    is the two halves with nothing in between. *)

Module Async.

(** An insert the pool has not answered yet: the connection whose handler
    waits, the parameters bound to the query at line 158, and what the
    outside answers when it does (whether the pool resolves, the clock of
    the database, the clock of the server at that time). *)
Record Pending : Type := mkPending {
  p_conn : ConnId;
  p_user_id : JsVal;
  p_username : JsVal;
  p_message : JsVal;
  p_db_ok : bool;
  p_db_now : Z;
  p_js_now : Z
}.

(** The socket objects, which a waiting handler still holds after its
    connection closed; the connections that are live; the database; the
    inserts that wait, oldest first. *)
Record State : Type := mkState {
  objects : gmap ConnId Socket;
  live : gset ConnId;
  db : Db;
  pending : list Pending
}.

Definition start (d : Db) : State := mkState ∅ ∅ d [].

(** What the event loop takes next: an event of a connection, or the answer
    of the pool to the insert at position [k] of those that wait. *)
Inductive Step : Type :=
  | Arrive (e : Event)
  | Settle (k : nat).

(** [socket.username] as the handler of connection [c] reads it now. *)
Definition username_now (st : State) (c : ConnId) : JsVal :=
  match objects st !! c with
  | Some socket => sock_username socket
  | None => JUndefined
  end.

(** Lines 150-159: the gate, then the query is handed to the pool. *)
Definition send_message_begin (st : State) (c : ConnId) (socket : Socket)
    (data : SendPayload) (db_ok : bool) (db_now js_now : Z)
  : State * list Effect :=
  if negb (truthy (sock_userId socket)) then
    (st, [Emit c (EvError "Not authenticated")])
  else
    match data with
    | SendNullish => (st, [Emit c (EvError "Failed to send message")])
    | SendObject message =>
        (mkState (objects st) (live st) (db st)
                 (pending st ++ [mkPending c (sock_userId socket)
                                   (sock_username socket) message
                                   db_ok db_now js_now]),
         [InsertQuery (sock_userId socket) (sock_username socket) message])
    end.

(** Lines 161-169: the pool answered the insert [p]; on success
    [socket.username] is read again for the broadcast. *)
Definition send_message_resume (st : State) (k : nat) (p : Pending)
  : State * list Effect :=
  match insert_message (p_db_ok p) (p_db_now p) (db st)
          (p_user_id p) (p_username p) (p_message p) with
  | Some (d', _) =>
      (mkState (objects st) (live st) d' (delete k (pending st)),
       [Broadcast (EvNewMessage (username_now st (p_conn p)) (p_message p)
                                (p_js_now p))])
  | None =>
      (mkState (objects st) (live st) (db st) (delete k (pending st)),
       [Emit (p_conn p) (EvError "Failed to send message")])
  end.

Definition step (st : State) (s : Step) : Outcome State :=
  match s with
  | Arrive (Connect c) =>
      Done (mkState (<[c := new_socket]> (objects st)) ({[c]} ∪ live st)
                    (db st) (pending st)) []
  | Arrive (Authenticate c data) =>
      if bool_decide (c ∈ live st) then
        match objects st !! c with
        | None => Done st []
        | Some socket =>
            match Server.authenticate socket data with
            | None => Uncaught "TypeError"
            | Some socket' =>
                Done (mkState (<[c := socket']> (objects st)) (live st)
                              (db st) (pending st)) []
            end
        end
      else Done st []
  | Arrive (SendMessage c data db_ok db_now js_now) =>
      if bool_decide (c ∈ live st) then
        match objects st !! c with
        | None => Done st []
        | Some socket =>
            let '(st', fx) := send_message_begin st c socket data db_ok db_now js_now in
            Done st' fx
        end
      else Done st []
  | Arrive (Disconnect c) =>
      Done (mkState (objects st) (live st ∖ {[c]}) (db st) (pending st)) []
  | Settle k =>
      match pending st !! k with
      | None => Done st []
      | Some p =>
          let '(st', fx) := send_message_resume st k p in
          Done st' fx
      end
  end.

Fixpoint run (st : State) (ss : list Step) : Outcome State :=
  match ss with
  | [] => Done st []
  | s :: ss' =>
      match step st s with
      | Uncaught err => Uncaught err
      | Done st' fx =>
          match run st' ss' with
          | Uncaught err => Uncaught err
          | Done st'' fx' => Done st'' (fx ++ fx')
          end
      end
  end.


(** The state of [Server] as a state with no insert waiting. *)
Definition of_atomic (st : Server.State) : State :=
  mkState (Server.sockets st) (dom (Server.sockets st)) (Server.db st) [].

End Async.

(** ** Sample data for the examples *)

Module Sample.

(** A stand-in for bcrypt: the hash of a string is the string behind a
    prefix.  Like [bcrypt.hash] and [bcrypt.compare], which reject their
    promise when the data is missing or is not a string, it refuses
    anything but a string. *)
Definition hash (v : JsVal) : option string :=
  match v with
  | JStr s => Some ("$2b$" +:+ s)
  | _ => None
  end.

Definition compare (v : JsVal) (h : string) : option bool :=
  match v with
  | JStr s => Some (String.eqb ("$2b$" +:+ s) h)
  | _ => None
  end.

Definition alice : Credentials := mkCredentials (JStr "alice") (JStr "password1").
Definition alice_wrong : Credentials := mkCredentials (JStr "alice") (JStr "wrong").
Definition nobody : Credentials := mkCredentials (JStr "mallory") (JStr "wrong").

(** The database after [alice] registered. *)
Definition db_alice : Db :=
  mkDb [mkUser 1 (JStr "alice") "$2b$password1"] 2 [] 1.

Definition alice_session : Session := mkSession (JNum 1) (JStr "alice").

(** The database with three registered users. *)
Definition db_users : Db :=
  mkDb [mkUser 1 (JStr "alice") "$2b$password1";
        mkUser 2 (JStr "bob") "$2b$password2";
        mkUser 3 (JStr "carol") "$2b$password3"] 4 [] 1.

(** [src/server.js] started on that database, and the final state of a run
    from there (the start itself when the run ends on an uncaught
    exception). *)
Definition boot : Server.State := Server.start db_users.

Definition final (es : list Event) : Server.State :=
  match Server.run boot es with
  | Done st _ => st
  | Uncaught _ => boot
  end.

(** A connection that sent an [authenticate] without a [userId]. *)
Definition es_unauth : list Event :=
  [Connect "A"; Authenticate "A" (AuthObject JUndefined (JStr "alice"))].

(** A connection bound to [alice], then rebound to [bob], while another
    connection connects and sends. *)
Definition es_rebind : list Event :=
  [Connect "A"; Authenticate "A" (AuthObject (JNum 1) (JStr "alice"))].

Definition es_others : list Event :=
  [Connect "B"; Authenticate "B" (AuthObject (JNum 3) (JStr "carol"));
   SendMessage "B" (SendObject (JStr "x")) true 3 4].

(** A connection whose [authenticate] has a [userId] and an empty
    [username], and which then sends a message the store accepts. *)
Definition es_half_handshake : list Event :=
  [Connect "A"; Authenticate "A" (AuthObject (JNum 1) (JStr ""));
   SendMessage "A" (SendObject (JStr "hi")) true 5 7].

(** Two tabs of the same user. *)
Definition es_two_tabs : list Event :=
  [Connect "A"; Connect "B";
   Authenticate "A" (AuthObject (JNum 1) (JStr "alice"));
   Authenticate "B" (AuthObject (JNum 1) (JStr "alice"))].

Definition old_row (t : Z) : MessageRow :=
  mkMessage t (JNum 1) (JStr "alice") (JStr "old") t.

(** The revised server started on the database of three users, and the
    final state of a run from there. *)
Definition revised_boot : Revised.State := Revised.mkState ∅ ∅ db_users.

Definition revised_final (es : list Event) : Revised.State :=
  fst (Revised.run revised_boot es).

(** A second tab of [alice], after she rebound her first connection to
    [bob]. *)
Definition es_tabs : list Event :=
  [Connect "A"; Connect "B";
   Authenticate "A" (AuthObject (JNum 1) (JStr "alice"));
   Authenticate "A" (AuthObject (JNum 2) (JStr "bob"));
   Authenticate "B" (AuthObject (JNum 1) (JStr "alice"))].




(** [trim] on the sample texts, which have no blank at their ends. *)
Definition trim (s : string) : string := s.

(** A page whose user signs in, types and clicks send, and the same with
    the acknowledgment of the server in between. *)
Definition clicks' (r : Response) : list Input :=
  [Submitted r; Connected; Typed "hi"; SendClicked; Disconnected; Connected].

Definition clicks (r : Response) : list Input :=
  [Submitted r; Connected; Authenticated; Typed "hi"; SendClicked].

End Sample.

(** * Properties of [src/server.js] *)

(** ** The realtime handlers *)

Section ServerRuns.

Implicit Types (st : Server.State) (es : list Event) (c : ConnId).

Lemma run_app st es1 es2 :
  Server.run st (es1 ++ es2) =
  match Server.run st es1 with
  | Uncaught err => Uncaught err
  | Done st1 fx1 =>
      match Server.run st1 es2 with
      | Uncaught err => Uncaught err
      | Done st2 fx2 => Done st2 (fx1 ++ fx2)
      end
  end.
Proof.
  revert st. induction es1 as [|e es1 IH]; intros st; simpl.
  - destruct (Server.run st es2); reflexivity.
  - destruct (Server.step st e) as [st' fx|err]; [|reflexivity].
    rewrite IH. destruct (Server.run st' es1) as [st1 fx1|]; [|reflexivity].
    destruct (Server.run st1 es2) as [st2 fx2|]; [|reflexivity].
    by rewrite (assoc_L (++)).
Qed.

(** The gate of [send_message] reads one bit of the socket, and a run
    leaves in it what the last [authenticate] of the connection supplied. *)
Lemma run_gate_bit c es : ∀ st acc st' fx,
  Server.run st es = Done st' fx →
  (∀ s, Server.sockets st !! c = Some s → truthy (sock_userId s) = acc) →
  ∀ s, Server.sockets st' !! c = Some s →
       truthy (sock_userId s) = Server.authenticated_after c es acc.
Proof.
  induction es as [|e es IH]; intros st acc st' fx Hrun Hst s Hs; simpl in *.
  - injection Hrun as <- _. by apply Hst.
  - destruct (Server.step st e) as [st1 fx1|] eqn:Hstep; [|discriminate].
    destruct (Server.run st1 es) as [st2 fx2|] eqn:Hrest; [|discriminate].
    injection Hrun as <- _.
    destruct e as [c'|c' [|u n]|c' data ok tdb tjs|c']; simpl in Hstep.
    + injection Hstep as <- _.
      eapply IH; [exact Hrest| |exact Hs]. intros s1 Hs1. simpl in Hs1.
      destruct (String.eqb_spec c' c) as [->|Hne].
      * rewrite lookup_insert_eq in Hs1. by injection Hs1 as <-.
      * rewrite lookup_insert_ne in Hs1 by done. by apply Hst.
    + destruct (Server.sockets st !! c'); simpl in Hstep; [discriminate|].
      injection Hstep as <- _. by eapply IH.
    + destruct (Server.sockets st !! c') as [s0|] eqn:Hc'; simpl in Hstep.
      * injection Hstep as <- _.
        eapply IH; [exact Hrest| |exact Hs]. intros s1 Hs1. simpl in Hs1.
        destruct (String.eqb_spec c' c) as [->|Hne].
        -- rewrite lookup_insert_eq in Hs1. by injection Hs1 as <-.
        -- rewrite lookup_insert_ne in Hs1 by done. by apply Hst.
      * injection Hstep as <- _.
        eapply IH; [exact Hrest| |exact Hs]. intros s1 Hs1.
        destruct (String.eqb_spec c' c) as [->|Hne]; [congruence|by apply Hst].
    + destruct (Server.sockets st !! c') as [s0|]; simpl in Hstep.
      * destruct (Server.send_message c' s0 (Server.db st) data ok tdb tjs)
          as [d' fx0].
        injection Hstep as <- _. by eapply IH.
      * injection Hstep as <- _. by eapply IH.
    + injection Hstep as <- _.
      eapply IH; [exact Hrest| |exact Hs]. intros s1 Hs1. simpl in Hs1.
      destruct (String.eqb_spec c' c) as [->|Hne].
      * by rewrite lookup_delete_eq in Hs1.
      * rewrite lookup_delete_ne in Hs1 by done. by apply Hst.
Qed.

Lemma no_handshake_bit c es :
  Server.no_handshake c es → Server.authenticated_after c es false = false.
Proof.
  induction es as [|e es IH]; intros Hno; [reflexivity|].
  assert (Hes : Server.no_handshake c es).
  { intros u n Hin. apply (Hno u n). by right. }
  destruct e as [c'|c' [|u n]|c' data ok tdb tjs|c']; simpl; auto.
  - destruct (String.eqb c' c); auto.
  - destruct (String.eqb_spec c' c) as [->|Hne]; [|auto].
    rewrite (Hno u n) by (by left). auto.
Qed.

(** A socket whose [userId] is falsy gets the error and nothing else
    happens. *)
Lemma send_message_gate_closed c s d data ok tdb tjs :
  truthy (sock_userId s) = false →
  Server.send_message c s d data ok tdb tjs =
    (d, [Emit c (EvError "Not authenticated")]).
Proof. intros H. unfold Server.send_message. by rewrite H. Qed.

End ServerRuns.

(** What the gate of line 151 does keep out.  On any run of the server
    from its start, on any database, a connection that is live and none of
    whose [authenticate] events supplied a truthy [userId] answers a
    [send_message] by one [error] event to the sender: the state, and with
    it the messages table, is what it was, and the effects hold no query
    and no broadcast. *)
Theorem send_message_before_handshake_rejected
    (d : Db) (es : list Event) (st : Server.State) (fx : list Effect)
    (c : ConnId) (socket : Socket)
    (data : SendPayload) (db_ok : bool) (db_now js_now : Z) :
  Server.run (Server.start d) es = Done st fx →
  Server.sockets st !! c = Some socket →
  Server.no_handshake c es →
  Server.step st (SendMessage c data db_ok db_now js_now) =
    Done st [Emit c (EvError "Not authenticated")].
Proof.
  intros Hrun Hlive Hno.
  assert (Hbit : truthy (sock_userId socket) = false).
  { rewrite <- (no_handshake_bit c es Hno).
    eapply run_gate_bit; [exact Hrun| |exact Hlive].
    intros s Hs. simpl in Hs. by rewrite lookup_empty in Hs. }
  simpl. rewrite Hlive.
  rewrite send_message_gate_closed by exact Hbit.
  by destruct st.
Qed.

Lemma send_message_before_handshake_rejected_witness :
  Server.run Sample.boot Sample.es_unauth = Done (Sample.final Sample.es_unauth) [] ∧
  Server.no_handshake "A" Sample.es_unauth ∧
  Server.step (Sample.final Sample.es_unauth)
    (SendMessage "A" (SendObject (JStr "hi")) true 5 7) =
  Done (Sample.final Sample.es_unauth) [Emit "A" (EvError "Not authenticated")].
Proof.
  assert (Hno : Server.no_handshake "A" Sample.es_unauth).
  { intros u n [H|[H|[]]]; inversion H; reflexivity. }
  split; [vm_compute; reflexivity|]. split; [exact Hno|].
  apply (send_message_before_handshake_rejected Sample.db_users Sample.es_unauth
           (Sample.final Sample.es_unauth) [] "A"
           (mkSocket JUndefined (JStr "alice"))).
  - vm_compute; reflexivity.
  - vm_compute; reflexivity.
  - exact Hno.
Defined.

(** C2.  [src/server.js] at a connection whose only [authenticate] came
    with an empty [username]: the payload fails the test of a handshake
    ([data && data.userId && data.username]), so no handshake succeeded;
    yet the gate of line 151 reads [userId] alone and is open.  The
    [send_message] that follows is stored, with the empty username, and
    broadcast; no [error] event is emitted. *)
Theorem send_message_after_failed_handshake_accepted :
  Registry.valid_payload (AuthObject (JNum 1) (JStr "")) = false ∧
  Server.run Sample.boot Sample.es_half_handshake =
    Done (Sample.final Sample.es_half_handshake)
         [InsertQuery (JNum 1) (JStr "") (JStr "hi");
          Broadcast (EvNewMessage (JStr "") (JStr "hi") 7)] ∧
  messages (Server.db Sample.boot) = [] ∧
  messages (Server.db (Sample.final Sample.es_half_handshake)) =
    [mkMessage 1 (JNum 1) (JStr "") (JStr "hi") 5].
Proof. repeat split; vm_compute; reflexivity. Qed.

(** C7.  When the insert of a message from a connection that passed the gate
    fails, the handler has issued that one query and emits one [error]
    event to the sender: the state is unchanged, no effect is a broadcast,
    no effect is an emit to another connection, and the query is not
    issued a second time. *)
Theorem append_failure_reported_to_sender_only
    (st : Server.State) (c : ConnId) (socket : Socket) (message : JsVal)
    (db_ok : bool) (db_now js_now : Z) :
  Server.sockets st !! c = Some socket →
  truthy (sock_userId socket) = true →
  insert_message db_ok db_now (Server.db st)
    (sock_userId socket) (sock_username socket) message = None →
  ∃ fx,
    Server.step st (SendMessage c (SendObject message) db_ok db_now js_now) =
      Done st fx ∧
    fx = [InsertQuery (sock_userId socket) (sock_username socket) message;
          Emit c (EvError "Failed to send message")] ∧
    filter (λ e, is_broadcast e = true) fx = [] ∧
    filter (λ e, is_emit_to_other c e = true) fx = [] ∧
    length (filter (λ e, is_query e = true) fx) = 1%nat.
Proof.
  intros Hlive Hgate Hfail. eexists. split; [|split; [reflexivity|]].
  - simpl. rewrite Hlive. unfold Server.send_message.
    rewrite Hgate, Hfail. simpl. by destruct st.
  - cbn. rewrite String.eqb_refl. cbn. done.
Qed.

Lemma append_failure_reported_to_sender_only_witness :
  ∃ fx,
    Server.step (Sample.final Sample.es_rebind)
      (SendMessage "A" (SendObject (JStr "hi")) false 5 7) =
      Done (Sample.final Sample.es_rebind) fx ∧
    fx = [InsertQuery (JNum 1) (JStr "alice") (JStr "hi");
          Emit "A" (EvError "Failed to send message")] ∧
    filter (λ e, is_broadcast e = true) fx = [] ∧
    filter (λ e, is_emit_to_other "A" e = true) fx = [] ∧
    length (filter (λ e, is_query e = true) fx) = 1%nat.
Proof.
  apply (append_failure_reported_to_sender_only
           (Sample.final Sample.es_rebind) "A"
           (mkSocket (JNum 1) (JStr "alice")) (JStr "hi") false 5 7).
  - vm_compute; reflexivity.
  - reflexivity.
  - reflexivity.
Defined.

(** What a send does once the gate is passed and the store accepts the
    row: the row carries the identity kept on the socket, and so does the
    broadcast. *)
Lemma send_message_accepted c s d message db_now js_now :
  truthy (sock_userId s) = true →
  Server.send_message c s d (SendObject message) true db_now js_now =
    (Server.with_message d
       (mkMessage (next_message_id d) (sock_userId s) (sock_username s)
                  message db_now),
     [InsertQuery (sock_userId s) (sock_username s) message;
      Broadcast (EvNewMessage (sock_username s) message js_now)]).
Proof. intros H. unfold Server.send_message. by rewrite H. Qed.

(** ** The handlers with their [await] *)

(** [Server.send_message] is the handler with nothing taken during its
    [await]: the first half, then at once the second. *)
Lemma atomic_send_is_the_two_halves
    (st : Server.State) (c : ConnId) (socket : Socket) (data : SendPayload)
    (db_ok : bool) (db_now js_now : Z) :
  Server.sockets st !! c = Some socket →
  Async.run (Async.of_atomic st)
    [Async.Arrive (SendMessage c data db_ok db_now js_now); Async.Settle 0] =
  Done (Async.of_atomic
          (Server.mkState (Server.sockets st)
             (fst (Server.send_message c socket (Server.db st) data
                     db_ok db_now js_now))))
       (snd (Server.send_message c socket (Server.db st) data db_ok db_now js_now)).
Proof.
  intros Hc. unfold Async.of_atomic. cbn [Async.run Async.step Async.live Async.objects].
  rewrite bool_decide_eq_true_2 by (apply elem_of_dom; eauto).
  rewrite Hc. unfold Async.send_message_begin, Server.send_message.
  cbn [Async.objects Async.live Async.db Async.pending].
  destruct (truthy (sock_userId socket)); simpl; [|reflexivity].
  destruct data as [|message]; simpl; [reflexivity|].
  unfold Async.send_message_resume, Async.username_now. simpl. rewrite Hc.
  by destruct (insert_message _ _ _ _ _ _) as [[d' row]|].
Qed.








(** ** The message history *)

Section RecentMessages.

(** What [ORDER BY created_at DESC] may answer on a table [t]: any
    arrangement [q] of its rows with newer rows first (rows of equal
    creation time in any order). *)
Variables (t q : list MessageView).
Hypothesis q_perm : q ≡ₚ t.
Hypothesis q_sorted : StronglySorted newer_first q.

Lemma limit_reverse_ascending (k : nat) :
  StronglySorted older_first (reverse (take k q)).
Proof.
  assert (Htake : StronglySorted newer_first (take k q)).
  { rewrite <- (take_drop k q) in q_sorted.
    by apply StronglySorted_app in q_sorted as (_ & ? & _). }
  apply Sorted_StronglySorted.
  { intros a b c. unfold older_first. lia. }
  apply StronglySorted_Sorted in Htake.
  apply (Sorted_reverse newer_first) in Htake.
  exact Htake.
Qed.

Lemma limit_reverse_length (k : nat) :
  length (reverse (take k q)) = Nat.min k (length t).
Proof. by rewrite length_reverse, length_take, q_perm. Qed.

Lemma limit_reverse_most_recent (k : nat) :
  reverse (take k q) ++ drop k q ≡ₚ t ∧
  ∀ kept left_out, kept ∈ reverse (take k q) → left_out ∈ drop k q →
     v_created_at left_out <= v_created_at kept.
Proof.
  split.
  - by rewrite reverse_Permutation, take_drop.
  - intros kept left_out Hkept Hout. rewrite elem_of_reverse in Hkept.
    rewrite <- (take_drop k q) in q_sorted.
    apply StronglySorted_app in q_sorted as (Hcross & _ & _).
    exact (Hcross kept left_out Hkept Hout).
Qed.

End RecentMessages.

(** A row newer than every other row of the table sorts first. *)
Lemma newest_sorts_first (l : list MessageView) (x : MessageView) :
  (∀ y, y ∈ l → v_created_at y < v_created_at x) →
  ∃ rest, merge_sort newer_first (l ++ [x]) = x :: rest.
Proof.
  intros Hnew.
  pose proof (merge_sort_Permutation newer_first (l ++ [x])) as Hperm.
  pose proof (StronglySorted_merge_sort newer_first (l ++ [x])) as Hsorted.
  destruct (merge_sort newer_first (l ++ [x])) as [|h rest].
  { apply Permutation_nil_l in Hperm. by destruct l. }
  exists rest. f_equal.
  assert (Hh : h ∈ l ++ [x]) by (rewrite <- Hperm; left).
  assert (Hx : x ∈ h :: rest).
  { rewrite Hperm, elem_of_app, list_elem_of_singleton. by right. }
  rewrite elem_of_app, list_elem_of_singleton in Hh.
  destruct Hh as [Hl|Heq]; [|exact Heq].
  rewrite elem_of_cons in Hx.
  destruct Hx as [Heq|Hx]; [by symmetry|].
  apply StronglySorted_cons in Hsorted as [Hall _].
  rewrite Forall_forall in Hall. specialize (Hall x Hx).
  specialize (Hnew h Hl). unfold newer_first in Hall. lia.
Qed.

(** C5.  Without a session (a falsy [req.session.userId]) [GET /messages]
    answers 401 with the error object and no row, whatever the store holds.
    With a session, and the query answered, it answers 200 with rows in
    ascending creation time, [min 100 n] of the [n] rows of the table.
    Every row returned is the [username], [message] and [created_at] of a
    row of the table, and the rows returned are the most recent ones:
    together with the rows left out they are the table, row for row, and
    no row left out is newer than a row returned. *)
Theorem get_messages_recent_ascending (d : Db) (sess : Session) :
  (truthy (sess_userId sess) = false →
   ∀ db_ok, Server.get_messages db_ok d sess =
            mkResponse 401 (BObject [("error", JStr "Not authenticated")])) ∧
  (truthy (sess_userId sess) = true →
   ∃ rows left_out,
     Server.get_messages true d sess = mkResponse 200 (BRows rows) ∧
     StronglySorted (λ a b, v_created_at a <= v_created_at b) rows ∧
     length rows = Nat.min 100 (length (messages d)) ∧
     rows ++ left_out ≡ₚ
       map (λ r, mkView (m_username r) (m_message r) (m_created_at r))
           (messages d) ∧
     (∀ v, v ∈ rows →
        ∃ r, r ∈ messages d ∧
             v_username v = m_username r ∧ v_message v = m_message r ∧
             v_created_at v = m_created_at r) ∧
     ∀ kept out, kept ∈ rows → out ∈ left_out →
       v_created_at out <= v_created_at kept).
Proof.
  split.
  - intros Hno db_ok. unfold Server.get_messages. by rewrite Hno.
  - intros Hsess.
    set (t := map view_of (messages d)).
    set (q := merge_sort newer_first t).
    assert (Hperm : q ≡ₚ t) by apply merge_sort_Permutation.
    assert (Hsorted : StronglySorted newer_first q)
      by apply (StronglySorted_merge_sort newer_first).
    assert (Htable : reverse (take 100 q) ++ drop 100 q ≡ₚ
              map (λ r, mkView (m_username r) (m_message r) (m_created_at r))
                  (messages d)).
    { by apply limit_reverse_most_recent. }
    exists (reverse (take 100 q)), (drop 100 q).
    split; [|split; [|split; [|split; [|split]]]].
    + unfold Server.get_messages. by rewrite Hsess.
    + by apply (limit_reverse_ascending q).
    + rewrite (limit_reverse_length t q Hperm). unfold t. by rewrite length_map.
    + exact Htable.
    + intros v Hv.
      assert (Hin : v ∈ map (λ r, mkView (m_username r) (m_message r)
                                         (m_created_at r)) (messages d)).
      { rewrite <- Htable. apply elem_of_app. by left. }
      apply list_elem_of_fmap in Hin as (r & -> & Hr). by exists r.
    + by apply (limit_reverse_most_recent t q).
Qed.

Lemma get_messages_recent_ascending_witness :
  let d := mkDb [] 1 (map Sample.old_row [3; 1; 2]) 4 in
  Server.get_messages true d no_session =
    mkResponse 401 (BObject [("error", JStr "Not authenticated")]) ∧
  ∃ rows left_out,
    Server.get_messages true d Sample.alice_session = mkResponse 200 (BRows rows) ∧
    StronglySorted (λ a b, v_created_at a <= v_created_at b) rows ∧
    length rows = 3%nat ∧
    rows ++ left_out ≡ₚ
      map (λ r, mkView (m_username r) (m_message r) (m_created_at r))
          (messages d) ∧
    (∀ v, v ∈ rows →
       ∃ r, r ∈ messages d ∧
            v_username v = m_username r ∧ v_message v = m_message r ∧
            v_created_at v = m_created_at r) ∧
    ∀ kept out, kept ∈ rows → out ∈ left_out →
      v_created_at out <= v_created_at kept.
Proof.
  intros d.
  destruct (get_messages_recent_ascending d no_session) as [Hno _].
  destruct (get_messages_recent_ascending d Sample.alice_session) as [_ Hyes].
  split; [exact (Hno eq_refl true)|exact (Hyes eq_refl)].
Defined.

(** C10.  A [send_message] that passes the gate and whose insert the store
    accepts broadcasts [new_message] with the reading [js_now] of the
    server clock ([new Date()] at emit time), while the row it stored
    carries the reading [db_now] of the database clock (the column
    default).  The row being the newest of the table, a later
    [GET /messages] ends with it and gives [db_now] for the same message:
    the two readings are independent inputs, and where they differ the
    broadcast and the history disagree. *)
Theorem broadcast_timestamp_is_server_clock
    (c : ConnId) (socket : Socket) (d : Db) (message : JsVal)
    (db_now js_now : Z) (sess : Session) :
  truthy (sock_userId socket) = true →
  truthy (sess_userId sess) = true →
  (∀ r, r ∈ messages d → m_created_at r < db_now) →
  ∃ d' older,
    Server.send_message c socket d (SendObject message) true db_now js_now =
      (d', [InsertQuery (sock_userId socket) (sock_username socket) message;
            Broadcast (EvNewMessage (sock_username socket) message js_now)]) ∧
    messages d' =
      messages d ++ [mkMessage (next_message_id d) (sock_userId socket)
                               (sock_username socket) message db_now] ∧
    Server.get_messages true d' sess =
      mkResponse 200
        (BRows (older ++ [mkView (sock_username socket) message db_now])).
Proof.
  intros Hgate Hsess Hnew.
  set (row := mkMessage (next_message_id d) (sock_userId socket)
                        (sock_username socket) message db_now).
  destruct (newest_sorts_first (map view_of (messages d)) (view_of row))
    as [rest Hsort].
  { intros y Hy. apply list_elem_of_fmap in Hy as (r & -> & Hr).
    simpl. by apply Hnew. }
  exists (Server.with_message d row), (reverse (take 99 rest)).
  split; [by apply send_message_accepted|]. split; [reflexivity|].
  unfold Server.get_messages. rewrite Hsess. simpl.
  unfold select_recent_messages. simpl messages.
  rewrite map_app. simpl map. rewrite Hsort.
  change (take 100 (view_of row :: rest)) with (view_of row :: take 99 rest).
  by rewrite reverse_cons.
Qed.

Lemma broadcast_timestamp_is_server_clock_witness :
  ∃ d' older,
    Server.send_message "A" (mkSocket (JNum 1) (JStr "alice"))
      (mkDb [] 2 [Sample.old_row 1] 2) (SendObject (JStr "hi")) true 5 7 =
      (d', [InsertQuery (JNum 1) (JStr "alice") (JStr "hi");
            Broadcast (EvNewMessage (JStr "alice") (JStr "hi") 7)]) ∧
    messages d' =
      [Sample.old_row 1; mkMessage 2 (JNum 1) (JStr "alice") (JStr "hi") 5] ∧
    Server.get_messages true d' Sample.alice_session =
      mkResponse 200 (BRows (older ++ [mkView (JStr "alice") (JStr "hi") 5])).
Proof.
  apply (broadcast_timestamp_is_server_clock "A"
           (mkSocket (JNum 1) (JStr "alice"))
           (mkDb [] 2 [Sample.old_row 1] 2) (JStr "hi") 5 7
           Sample.alice_session).
  - reflexivity.
  - reflexivity.
  - intros r Hr. apply list_elem_of_singleton in Hr as ->. simpl. lia.
Defined.

(** ** The routes *)

(** Where the two failures of a login do look the same.  A login with a
    known username and a password the verifier compares and finds wrong,
    and a login with a username that is in no row, get the same response,
    401 with [{ error: 'Invalid credentials' }], and leave the session as
    it was. *)
Theorem login_failure_indistinguishable
    (bcrypt_compare : JsVal → string → option bool)
    (d1 d2 : Db) (sess1 sess2 : Session) (req1 req2 : Credentials)
    (user : UserRow) :
  select_user d1 (username req1) = Some user →
  bcrypt_compare (password req1) (u_password user) = Some false →
  select_user d2 (username req2) = None →
  Server.login bcrypt_compare true d1 sess1 req1 =
    (sess1, mkResponse 401 (BObject [("error", JStr "Invalid credentials")])) ∧
  Server.login bcrypt_compare true d2 sess2 req2 =
    (sess2, mkResponse 401 (BObject [("error", JStr "Invalid credentials")])) ∧
  snd (Server.login bcrypt_compare true d1 sess1 req1) =
  snd (Server.login bcrypt_compare true d2 sess2 req2).
Proof.
  intros Hknown Hwrong Hunknown.
  assert (H1 : Server.login bcrypt_compare true d1 sess1 req1 =
    (sess1, mkResponse 401 (BObject [("error", JStr "Invalid credentials")]))).
  { unfold Server.login. simpl. by rewrite Hknown, Hwrong. }
  assert (H2 : Server.login bcrypt_compare true d2 sess2 req2 =
    (sess2, mkResponse 401 (BObject [("error", JStr "Invalid credentials")]))).
  { unfold Server.login. simpl. by rewrite Hunknown. }
  split; [exact H1|]. split; [exact H2|]. by rewrite H1, H2.
Qed.

Lemma login_failure_indistinguishable_witness :
  Server.login Sample.compare true Sample.db_alice no_session Sample.alice_wrong =
    (no_session, mkResponse 401 (BObject [("error", JStr "Invalid credentials")])) ∧
  Server.login Sample.compare true Sample.db_alice no_session Sample.nobody =
    (no_session, mkResponse 401 (BObject [("error", JStr "Invalid credentials")])) ∧
  snd (Server.login Sample.compare true Sample.db_alice no_session Sample.alice_wrong) =
  snd (Server.login Sample.compare true Sample.db_alice no_session Sample.nobody).
Proof.
  apply (login_failure_indistinguishable Sample.compare
           Sample.db_alice Sample.db_alice no_session no_session
           Sample.alice_wrong Sample.nobody
           (mkUser 1 (JStr "alice") "$2b$password1")).
  - reflexivity.
  - reflexivity.
  - reflexivity.
Defined.

(** A login whose comparison is refused ends in the [catch] of line 106
    when the username is known, and at line 93 when it is not. *)
Lemma login_refused_compare_tells_username
    (bcrypt_compare : JsVal → string → option bool)
    (d : Db) (sess : Session) (known unknown : Credentials) (user : UserRow) :
  select_user d (username known) = Some user →
  bcrypt_compare (password known) (u_password user) = None →
  select_user d (username unknown) = None →
  Server.login bcrypt_compare true d sess known =
    (sess, mkResponse 500 (BObject [("error", JStr "Server error")])) ∧
  Server.login bcrypt_compare true d sess unknown =
    (sess, mkResponse 401 (BObject [("error", JStr "Invalid credentials")])).
Proof.
  intros Hknown Hrefused Hunknown. unfold Server.login. simpl.
  by rewrite Hknown, Hrefused, Hunknown.
Qed.

(** C6.  [src/server.js] at a login without a password, and at one whose
    password is a number, which no stored hash can match: for the
    registered [alice] the comparison is refused and the answer is 500
    [Server error]; for [mallory], who is in no row, the same request is
    answered 401 [Invalid credentials].  The two bodies differ, so the
    answer tells whether the username exists. *)
Theorem login_without_password_tells_username :
  Server.login Sample.compare true Sample.db_alice no_session
    (mkCredentials (JStr "alice") JUndefined) =
    (no_session, mkResponse 500 (BObject [("error", JStr "Server error")])) ∧
  Server.login Sample.compare true Sample.db_alice no_session
    (mkCredentials (JStr "mallory") JUndefined) =
    (no_session, mkResponse 401 (BObject [("error", JStr "Invalid credentials")])) ∧
  Server.login Sample.compare true Sample.db_alice no_session
    (mkCredentials (JStr "alice") (JNum 12345)) =
    (no_session, mkResponse 500 (BObject [("error", JStr "Server error")])) ∧
  Server.login Sample.compare true Sample.db_alice no_session
    (mkCredentials (JStr "mallory") (JNum 12345)) =
    (no_session, mkResponse 401 (BObject [("error", JStr "Invalid credentials")])) ∧
  snd (Server.login Sample.compare true Sample.db_alice no_session
         (mkCredentials (JStr "alice") JUndefined)) ≠
  snd (Server.login Sample.compare true Sample.db_alice no_session
         (mkCredentials (JStr "mallory") JUndefined)).
Proof. repeat split; try reflexivity. discriminate. Qed.

(** [src/server.js] answers a successful registration or login with
    [success] and [username] only. *)
Lemma server_body_never_has_userId
    (bcrypt_hash : JsVal → option string)
    (bcrypt_compare : JsVal → string → option bool)
    (db_ok : bool) (d : Db) (sess : Session) (req : Credentials) :
  body_has (snd (Server.register bcrypt_hash db_ok d sess req)) "userId" = false ∧
  body_has (snd (Server.login bcrypt_compare db_ok d sess req)) "userId" = false.
Proof.
  split.
  - unfold Server.register.
    repeat match goal with
           | |- context [if ?b then _ else _] => destruct b
           | |- context [match ?x with _ => _ end] => destruct x
           end; reflexivity.
  - unfold Server.login.
    repeat match goal with
           | |- context [if ?b then _ else _] => destruct b
           | |- context [match ?x with _ => _ end] => destruct x
           end; reflexivity.
Qed.

(** C8.  [src/server.js] at the registration of [alice] on the empty
    database, and at her login afterwards: both answer 200 and set the
    session to [{userId: 1, username: 'alice'}], and both bodies are
    [{success: true, username: 'alice'}], without a [userId]. *)
Theorem register_login_body_without_userId :
  Server.register Sample.hash true empty_db no_session Sample.alice =
    (Sample.db_alice, Sample.alice_session,
     mkResponse 200 (BObject [("success", JBool true); ("username", JStr "alice")])) ∧
  Server.login Sample.compare true Sample.db_alice no_session Sample.alice =
    (Sample.alice_session,
     mkResponse 200 (BObject [("success", JBool true); ("username", JStr "alice")])) ∧
  body_has (snd (Server.register Sample.hash true empty_db no_session Sample.alice))
    "userId" = false ∧
  body_has (snd (Server.login Sample.compare true Sample.db_alice no_session Sample.alice))
    "userId" = false.
Proof. repeat split; reflexivity. Qed.

(** ** The handshake that [src/server.js] does not have *)

(** No handler of [src/server.js] emits on [authenticate], and none
    disconnects another socket. *)
Lemma server_authenticate_is_silent
    (st : Server.State) (c : ConnId) (data : AuthPayload) :
  match Server.step st (Authenticate c data) with
  | Done _ fx => fx = []
  | Uncaught _ => data = AuthNullish
  end.
Proof.
  simpl. destruct (Server.sockets st !! c); [|reflexivity].
  destruct data; reflexivity.
Qed.

Lemma server_never_disconnects
    (st : Server.State) (e : Event) (c : ConnId) :
  match Server.step st e with
  | Done _ fx => ForceDisconnect c ∉ fx
  | Uncaught _ => True
  end.
Proof.
  destruct e as [c'|c' data|c' data ok tdb tjs|c']; simpl.
  - apply not_elem_of_nil.
  - destruct (Server.sockets st !! c'); [|apply not_elem_of_nil].
    destruct data; simpl; [done|apply not_elem_of_nil].
  - destruct (Server.sockets st !! c') as [s|]; [|apply not_elem_of_nil].
    unfold Server.send_message.
    destruct (truthy (sock_userId s)); simpl.
    + destruct data as [|m]; simpl.
      * rewrite elem_of_cons, elem_of_nil. by intros [?|[]].
      * destruct (insert_message _ _ _ _ _ _) as [[d' row]|];
          rewrite !elem_of_cons, elem_of_nil; by intros [?|[?|[]]].
    + rewrite elem_of_cons, elem_of_nil. by intros [?|[]].
  - apply not_elem_of_nil.
Qed.

(** C1.  [src/server.js] with two connections that authenticate one after
    the other as user 1: the run has no effect at all, so no transport is
    disconnected; both connections stay live and bound to the user, and the
    first one still passes the gate and broadcasts. *)
Theorem second_handshake_leaves_first_connected :
  Server.run Sample.boot Sample.es_two_tabs =
    Done (Sample.final Sample.es_two_tabs) [] ∧
  Server.sockets (Sample.final Sample.es_two_tabs) !! "A" =
    Some (mkSocket (JNum 1) (JStr "alice")) ∧
  Server.sockets (Sample.final Sample.es_two_tabs) !! "B" =
    Some (mkSocket (JNum 1) (JStr "alice")) ∧
  ∃ st', Server.step (Sample.final Sample.es_two_tabs)
           (SendMessage "A" (SendObject (JStr "hi")) true 5 7) =
         Done st' [InsertQuery (JNum 1) (JStr "alice") (JStr "hi");
                   Broadcast (EvNewMessage (JStr "alice") (JStr "hi") 7)].
Proof.
  split; [vm_compute; reflexivity|].
  split; [vm_compute; reflexivity|].
  split; [vm_compute; reflexivity|].
  eexists. vm_compute. reflexivity.
Qed.

(** C3.  [src/server.js] at an [authenticate] whose [username] is missing:
    nothing is emitted, the socket takes the [userId], and a
    [send_message] then passes the gate and reaches the store.  At an
    [authenticate] whose [userId] is empty nothing is emitted either, and at
    one without a payload the handler throws. *)
Theorem invalid_authenticate_emits_nothing :
  Server.run Sample.boot
    [Connect "A"; Authenticate "A" (AuthObject (JNum 1) JUndefined)] =
    Done (Sample.final
            [Connect "A"; Authenticate "A" (AuthObject (JNum 1) JUndefined)]) [] ∧
  Server.sockets
    (Sample.final [Connect "A"; Authenticate "A" (AuthObject (JNum 1) JUndefined)])
    !! "A" = Some (mkSocket (JNum 1) JUndefined) ∧
  Server.step
    (Sample.final [Connect "A"; Authenticate "A" (AuthObject (JNum 1) JUndefined)])
    (SendMessage "A" (SendObject (JStr "hi")) false 5 7) =
    Done (Sample.final
            [Connect "A"; Authenticate "A" (AuthObject (JNum 1) JUndefined)])
         [InsertQuery (JNum 1) JUndefined (JStr "hi");
          Emit "A" (EvError "Failed to send message")] ∧
  Server.run Sample.boot
    [Connect "A"; Authenticate "A" (AuthObject (JStr "") (JStr "alice"))] =
    Done (Sample.final
            [Connect "A"; Authenticate "A" (AuthObject (JStr "") (JStr "alice"))]) [] ∧
  Server.run Sample.boot [Connect "A"; Authenticate "A" AuthNullish] =
    Uncaught "TypeError".
Proof. repeat split; vm_compute; reflexivity. Qed.

(** C4.  [src/server.js] at a well-formed [authenticate] on a new
    connection: the socket is bound to the identity and passes the gate
    from then on, and no event is emitted, so no [authenticated]
    acknowledgment reaches the client. *)
Theorem authenticate_sends_no_acknowledgment :
  Server.run Sample.boot Sample.es_rebind =
    Done (Sample.final Sample.es_rebind) [] ∧
  Server.sockets (Sample.final Sample.es_rebind) !! "A" =
    Some (mkSocket (JNum 1) (JStr "alice")) ∧
  Emit "A" (EvAuthenticated true) ∉
    match Server.run Sample.boot Sample.es_rebind with
    | Done _ fx => fx
    | Uncaught _ => []
    end.
Proof.
  split; [vm_compute; reflexivity|]. split; [vm_compute; reflexivity|].
  vm_compute. apply not_elem_of_nil.
Qed.

(** * Properties of the revised server *)

Lemma find_snoc_None {A} (f : A → bool) (l : list A) (x : A) :
  find f l = None → find f (l ++ [x]) = if f x then Some x else None.
Proof.
  induction l as [|y l IH]; simpl; [done|].
  destruct (f y); [done|exact IH].
Qed.

(** The revised routes put the [userId] in the body and in the session. *)
Lemma revised_success_body_has_userId
    (bcrypt_hash : JsVal → option string)
    (bcrypt_compare : JsVal → string → option bool)
    (db_ok : bool) (d : Db) (sess : Session) (req : Credentials) :
  (∀ d' sess' resp,
     Revised.register bcrypt_hash db_ok d sess req = (d', sess', resp) →
     status resp = 200 →
     body_prop resp "userId" = sess_userId sess' ∧
     body_prop resp "username" = sess_username sess' ∧
     body_has resp "userId" = true ∧ body_has resp "username" = true ∧
     select_user d' (username req) =
       Some (mkUser (next_user_id d) (sess_username sess')
               (default "" (bcrypt_hash (password req)))) ∧
     sess_userId sess' = JNum (next_user_id d)) ∧
  (∀ sess' resp,
     Revised.login bcrypt_compare db_ok d sess req = (sess', resp) →
     status resp = 200 →
     body_prop resp "userId" = sess_userId sess' ∧
     body_prop resp "username" = sess_username sess' ∧
     body_has resp "userId" = true ∧ body_has resp "username" = true ∧
     ∃ user, select_user d (username req) = Some user ∧
             sess' = mkSession (JNum (u_id user)) (u_username user)).
Proof.
  split.
  - intros d' sess' resp. unfold Revised.register.
    destruct (negb (truthy (username req)) || negb (truthy (password req)));
      [intros [= <- <- <-]; discriminate|].
    destruct (length_lt (username req) 3 || length_lt (password req) 6);
      [intros [= <- <- <-]; discriminate|].
    destruct (bcrypt_hash (password req)) as [h|];
      [|intros [= <- <- <-]; discriminate].
    unfold insert_user.
    destruct (negb db_ok); [intros [= <- <- <-]; discriminate|].
    destruct (is_nullish (username req)) eqn:Hnull;
      [intros [= <- <- <-]; discriminate|].
    destruct (select_user d (username req)) eqn:Hsel;
      [intros [= <- <- <-]; discriminate|].
    intros [= <- <- <-] _. simpl. repeat split.
    unfold select_user in *. rewrite Hnull in *. simpl.
    rewrite (find_snoc_None _ _ _ Hsel). simpl. by rewrite bool_decide_eq_true_2.
  - intros sess' resp. unfold Revised.login.
    destruct (negb db_ok); [intros [= <- <-]; discriminate|].
    destruct (select_user d (username req)) as [user|];
      [|intros [= <- <-]; discriminate].
    destruct (bcrypt_compare (password req) (u_password user)) as [[|]|];
      [|intros [= <- <-]; discriminate..].
    intros [= <- <-] _. simpl. repeat split. by exists user.
Qed.

(** A payload without a truthy [userId] and [username] gets [auth_error],
    and nothing changes: the connection can authenticate later. *)
Lemma revised_invalid_authenticate_rejected
    (st : Revised.State) (c : ConnId) (data : AuthPayload) :
  match data with
  | AuthNullish => True
  | AuthObject u n => truthy u && truthy n = false
  end →
  Revised.authenticate st c data =
    (st, [Emit c (EvAuthError "Invalid authentication data")]).
Proof.
  destruct data as [|u n]; [reflexivity|].
  intros H. unfold Revised.authenticate. by rewrite H.
Qed.

(** A well-formed payload binds the socket, registers it and is
    acknowledged. *)
Lemma revised_authenticate_acknowledged
    (st : Revised.State) (c : ConnId) (u n : JsVal) :
  truthy u = true → truthy n = true →
  ∃ st' fx,
    Revised.authenticate st c (AuthObject u n) =
      (st', fx ++ [Emit c (EvAuthenticated true)]) ∧
    Revised.sockets st' !! c = Some (mkSocket u n) ∧
    Revised.userSockets st' !! u = Some c.
Proof.
  intros Hu Hn. unfold Revised.authenticate. rewrite Hu, Hn. simpl.
  destruct (Revised.supersede st c u) as [st1 fx].
  eexists _, fx. split; [reflexivity|]. simpl.
  by rewrite !lookup_insert_eq.
Qed.

(** The newest handshake wins: the connection registered for the user is
    disconnected and the registry names the new one. *)
Lemma revised_handshake_supersedes
    (st : Revised.State) (a b : ConnId) (sa : Socket) (u n : JsVal) :
  a ≠ b →
  Revised.userSockets st !! u = Some a →
  Revised.sockets st !! a = Some sa →
  truthy u = true → truthy n = true →
  ∃ st',
    Revised.authenticate st b (AuthObject u n) =
      (st', [ForceDisconnect a; Emit b (EvAuthenticated true)]) ∧
    Revised.sockets st' !! a = None ∧
    Revised.sockets st' !! b = Some (mkSocket u n) ∧
    Revised.userSockets st' !! u = Some b.
Proof.
  intros Hab Hreg Hlive Hu Hn.
  unfold Revised.authenticate, Revised.supersede.
  rewrite Hu, Hn. simpl. rewrite Hreg, Hlive.
  destruct (String.eqb_spec a b) as [->|_]; [done|]. simpl.
  eexists. split; [reflexivity|]. simpl.
  unfold Revised.close. rewrite Hlive. simpl.
  rewrite lookup_insert_ne by done.
  by rewrite lookup_delete_eq, !lookup_insert_eq.
Qed.

(** X17.  The newest handshake wins on the revised server: [a] completes
    the handshake as [u], and [b], live afterwards, completes it as [u]
    too; [a] is then force-disconnected and the registry names [b]. *)
Lemma revised_second_handshake_disconnects_first
    (st st1 : Revised.State) (fx1 : list Effect) (a b : ConnId)
    (sa sb : Socket) (u n1 n2 : JsVal) :
  a ≠ b →
  truthy u = true → truthy n1 = true → truthy n2 = true →
  Revised.sockets st !! a = Some sa →
  Revised.step st (Authenticate a (AuthObject u n1)) = (st1, fx1) →
  Revised.sockets st1 !! b = Some sb →
  ∃ st2,
    Revised.step st1 (Authenticate b (AuthObject u n2)) =
      (st2, [ForceDisconnect a; Emit b (EvAuthenticated true)]) ∧
    Revised.sockets st2 !! a = None ∧
    Revised.sockets st2 !! b = Some (mkSocket u n2) ∧
    Revised.userSockets st2 !! u = Some b ∧
    ∀ c, Revised.userSockets st2 !! u = Some c → c = b.
Proof.
  intros Hab Hu Hn1 Hn2 Ha Hstep1 Hb.
  unfold Revised.step in Hstep1. rewrite Ha in Hstep1.
  destruct (revised_authenticate_acknowledged st a u n1 Hu Hn1)
    as (st1' & fx1' & Hauth1 & Hsock1 & Hreg1).
  rewrite Hauth1 in Hstep1. injection Hstep1 as <- _.
  destruct (revised_handshake_supersedes st1' a b (mkSocket u n1) u n2
              Hab Hreg1 Hsock1 Hu Hn2) as (st2 & Hauth2 & Hgone & Hbound & Hreg2).
  exists st2. unfold Revised.step. rewrite Hb.
  split; [exact Hauth2|]. split; [exact Hgone|]. split; [exact Hbound|].
  split; [exact Hreg2|]. intros c Hc. congruence.
Qed.

(** The belated disconnect of a superseded connection leaves the entry of
    the newer one. *)
Lemma revised_stale_disconnect_keeps_entry
    (c : ConnId) (socket : Socket) (reg : gmap JsVal ConnId) (b : ConnId) :
  b ≠ c →
  reg !! sock_userId socket = Some b →
  Revised.on_disconnect c socket reg = reg.
Proof.
  intros Hbc Hreg. unfold Revised.on_disconnect.
  destruct (truthy (sock_userId socket)); [|reflexivity].
  rewrite bool_decide_eq_false_2; [reflexivity|]. congruence.
Qed.

(** The revised handler broadcasts the row the store returned: the
    timestamp of the broadcast is the one of the row. *)
Lemma revised_broadcast_carries_row
    (c : ConnId) (socket : Socket) (d : Db) (message : JsVal) (db_now : Z) :
  truthy (sock_userId socket) = true →
  truthy (sock_username socket) = true →
  Revised.send_message c socket d (SendObject message) true db_now =
    (Server.with_message d
       (mkMessage (next_message_id d) (sock_userId socket)
                  (sock_username socket) message db_now),
     [InsertQuery (sock_userId socket) (sock_username socket) message;
      Broadcast (EvNewMessage (sock_username socket) message db_now)]).
Proof.
  intros Hu Hn. unfold Revised.send_message. by rewrite Hu, Hn.
Qed.

(** * Further properties of [src/server.js] *)

(** ** Accounts *)

Section AccountFacts.

Variable bcrypt_hash : JsVal → option string.
Variable bcrypt_compare : JsVal → string → option bool.





End AccountFacts.



(** ** Sessions *)

Lemma select_user_in d name u :
  select_user d name = Some u → u ∈ users d ∧ u_username u = name.
Proof.
  unfold select_user. destruct (is_nullish name); [done|].
  intros Hfind. apply find_some in Hfind as [Hin Heq].
  split; [by apply list_elem_of_In|].
  by apply bool_decide_eq_true_1 in Heq.
Qed.

(** X6.  The life of a session: on a well-formed users table a login that
    answered 200 leaves a session for which [/check-auth] reports the
    username of the login and [/messages] is not refused; after
    [/logout], whatever the session was, [/check-auth] reports
    [authenticated: false] and [/messages] answers 401. *)
Theorem session_opens_and_ends
    (bcrypt_compare : JsVal → string → option bool)
    (d : Db) (sess sess' : Session) (req : Credentials) (resp : Response) :
  Accounts.users_wf d →
  Server.login bcrypt_compare true d sess req = (sess', resp) →
  status resp = 200 →
  Server.check_auth sess' =
    mkResponse 200 (BObject [("authenticated", JBool true);
                             ("username", username req)]) ∧
  (∀ d2, ∃ rows, Server.get_messages true d2 sess' = mkResponse 200 (BRows rows)) ∧
  Server.check_auth (fst (Server.logout sess')) =
    mkResponse 200 (BObject [("authenticated", JBool false)]) ∧
  (∀ db_ok d2, Server.get_messages db_ok d2 (fst (Server.logout sess')) =
               mkResponse 401 (BObject [("error", JStr "Not authenticated")])).
Proof.
  intros (_ & _ & _ & Hrows) Hlogin Hok.
  revert Hlogin. unfold Server.login. simpl.
  destruct (select_user d (username req)) as [user|] eqn:Hsel;
    [|intros [= <- <-]; discriminate].
  destruct (bcrypt_compare (password req) (u_password user)) as [[|]|];
    [|intros [= <- <-]; discriminate..].
  intros [= <- <-].
  apply select_user_in in Hsel as [Hin Hname].
  rewrite Forall_forall in Hrows. destruct (Hrows user Hin) as [_ Hid].
  assert (Htruthy : truthy (JNum (u_id user)) = true).
  { simpl. destruct (Z.eqb_spec (u_id user) 0); [lia|reflexivity]. }
  split; [|split; [|split]].
  - unfold Server.check_auth. simpl sess_userId. rewrite Htruthy.
    simpl. by rewrite Hname.
  - intros d2. eexists. unfold Server.get_messages. simpl sess_userId.
    by rewrite Htruthy.
  - reflexivity.
  - reflexivity.
Qed.

Lemma session_opens_and_ends_witness :
  Server.check_auth Sample.alice_session =
    mkResponse 200 (BObject [("authenticated", JBool true);
                             ("username", JStr "alice")]) ∧
  (∀ d2, ∃ rows, Server.get_messages true d2 Sample.alice_session =
                 mkResponse 200 (BRows rows)) ∧
  Server.check_auth (fst (Server.logout Sample.alice_session)) =
    mkResponse 200 (BObject [("authenticated", JBool false)]) ∧
  (∀ db_ok d2, Server.get_messages db_ok d2 (fst (Server.logout Sample.alice_session)) =
               mkResponse 401 (BObject [("error", JStr "Not authenticated")])).
Proof.
  apply (session_opens_and_ends Sample.compare Sample.db_alice no_session
           Sample.alice_session Sample.alice
           (mkResponse 200 (BObject [("success", JBool true); ("username", JStr "alice")]))).
  - unfold Accounts.users_wf. simpl.
    split; [apply NoDup_singleton|]. split; [apply NoDup_singleton|].
    split; [lia|]. apply Forall_singleton. simpl. split; [reflexivity|lia].
  - reflexivity.
  - reflexivity.
Defined.

(** ** The history of a log *)

(** A newest-first arrangement of rows whose last one is newer than all the
    others starts with that row. *)
Lemma newest_first_head (l q : list MessageView) (x : MessageView) :
  q ≡ₚ l ++ [x] →
  StronglySorted newer_first q →
  (∀ y, y ∈ l → v_created_at y < v_created_at x) →
  ∃ rest, q = x :: rest.
Proof.
  intros Hperm Hsorted Hnew.
  destruct q as [|h rest].
  { symmetry in Hperm. apply Permutation_nil_r in Hperm. by destruct l. }
  exists rest. f_equal.
  assert (Hh : h ∈ l ++ [x]) by (rewrite <- Hperm; left).
  assert (Hx : x ∈ h :: rest).
  { rewrite Hperm, elem_of_app, list_elem_of_singleton. by right. }
  rewrite elem_of_app, list_elem_of_singleton in Hh.
  destruct Hh as [Hl|Heq]; [|exact Heq].
  rewrite elem_of_cons in Hx.
  destruct Hx as [Heq|Hx]; [by symmetry|].
  apply StronglySorted_cons in Hsorted as [Hall _].
  rewrite Forall_forall in Hall. specialize (Hall x Hx).
  specialize (Hnew h Hl). unfold newer_first in Hall. lia.
Qed.

(** On rows of strictly increasing creation time there is one newest-first
    arrangement: the rows backwards. *)
Lemma newest_first_of_log (t : list MessageView) : ∀ q,
  StronglySorted History.strictly_older t →
  q ≡ₚ t →
  StronglySorted newer_first q →
  q = reverse t.
Proof.
  induction t as [|x t IH] using rev_ind; intros q Ht Hperm Hq.
  - by apply Permutation_nil_r in Hperm.
  - apply StronglySorted_app in Ht as (Hcross & Ht & _).
    destruct (newest_first_head t q x Hperm Hq) as [rest ->].
    { intros y Hy. apply Hcross; [exact Hy|]. by apply list_elem_of_singleton. }
    rewrite reverse_snoc. f_equal. apply IH; [exact Ht| |].
    + apply (Permutation_cons_inv (a := x)).
      rewrite Hperm. apply Permutation_app_comm.
    + by apply StronglySorted_cons in Hq as [_ ?].
Qed.

(** X7.  When the rows of [messages] were stored at strictly increasing
    database times, [GET /messages] with a session returns the table
    itself, in the order of insertion, cut to its last 100 rows: all of it
    while it has at most 100 rows. *)
Theorem get_messages_is_the_log_tail (d : Db) (sess : Session) :
  truthy (sess_userId sess) = true →
  StronglySorted History.strictly_older (History.table d) →
  Server.get_messages true d sess =
    mkResponse 200
      (BRows (drop (length (History.table d) - 100) (History.table d))).
Proof.
  intros Hsess Hlog.
  unfold Server.get_messages. rewrite Hsess. simpl.
  unfold select_recent_messages. fold (History.table d).
  rewrite (newest_first_of_log (History.table d)
             (merge_sort newer_first (History.table d)) Hlog).
  - by rewrite take_reverse, reverse_involutive.
  - apply merge_sort_Permutation.
  - apply (StronglySorted_merge_sort newer_first).
Qed.

Lemma get_messages_is_the_log_tail_witness :
  Server.get_messages true (mkDb [] 1 (map Sample.old_row [1; 2; 5]) 4)
    Sample.alice_session =
    mkResponse 200
      (BRows (drop (length (History.table (mkDb [] 1 (map Sample.old_row [1; 2; 5]) 4)) - 100)
                   (History.table (mkDb [] 1 (map Sample.old_row [1; 2; 5]) 4)))).
Proof.
  apply (get_messages_is_the_log_tail
           (mkDb [] 1 (map Sample.old_row [1; 2; 5]) 4) Sample.alice_session).
  - reflexivity.
  - unfold History.table. simpl.
    repeat (apply SSorted_cons; [|repeat constructor; unfold History.strictly_older; simpl; lia]).
    apply SSorted_nil.
Defined.

(** ** Runs of the socket handlers *)

(** X8.  After any run from the start, the gate of [send_message] is open
    for a live connection exactly when the last [authenticate] it sent
    since it connected supplied a truthy [userId]: the send is answered
    [Not authenticated], with nothing else done, if and only if it did
    not. *)
Theorem gate_follows_last_authenticate
    (d : Db) (es : list Event) (st : Server.State) (fx : list Effect)
    (c : ConnId) (socket : Socket)
    (data : SendPayload) (db_ok : bool) (db_now js_now : Z) :
  Server.run (Server.start d) es = Done st fx →
  Server.sockets st !! c = Some socket →
  Server.authenticated_after c es false = false ↔
  Server.step st (SendMessage c data db_ok db_now js_now) =
    Done st [Emit c (EvError "Not authenticated")].
Proof.
  intros Hrun Hlive.
  assert (Hbit : truthy (sock_userId socket) =
                 Server.authenticated_after c es false).
  { eapply run_gate_bit; [exact Hrun| |exact Hlive].
    intros s Hs. simpl in Hs. by rewrite lookup_empty in Hs. }
  rewrite <- Hbit. simpl. rewrite Hlive. split.
  - intros Hclosed. rewrite send_message_gate_closed by exact Hclosed.
    by destruct st.
  - unfold Server.send_message.
    destruct (truthy (sock_userId socket)); [|done]. simpl.
    destruct data as [|m]; [discriminate|].
    destruct (insert_message _ _ _ _ _ _) as [[d' row]|]; discriminate.
Qed.

Lemma gate_follows_last_authenticate_witness :
  Server.authenticated_after "A" Sample.es_unauth false = false ↔
  Server.step (Sample.final Sample.es_unauth)
    (SendMessage "A" (SendObject (JStr "hi")) true 5 7) =
    Done (Sample.final Sample.es_unauth) [Emit "A" (EvError "Not authenticated")].
Proof.
  apply (gate_follows_last_authenticate Sample.db_users Sample.es_unauth
           (Sample.final Sample.es_unauth) [] "A"
           (mkSocket JUndefined (JStr "alice"))).
  - vm_compute; reflexivity.
  - vm_compute; reflexivity.
Defined.

(** One event stores at most one row, leaves the users alone, and
    broadcasts exactly what it stored. *)
Lemma step_log (st st' : Server.State) (e : Event) (fx : list Effect) :
  Server.step st e = Done st' fx →
  ∃ new,
    users (Server.db st') = users (Server.db st) ∧
    next_user_id (Server.db st') = next_user_id (Server.db st) ∧
    messages (Server.db st') = messages (Server.db st) ++ new ∧
    next_message_id (Server.db st') =
      next_message_id (Server.db st) + Z.of_nat (length new) ∧
    map History.stored_as new = History.broadcasts fx ∧
    (∀ row, row ∈ new →
       ∃ c s, e = SendMessage c (SendObject (m_message row))
                    true (m_created_at row)
                    (match e with SendMessage _ _ _ _ t => t | _ => 0 end) ∧
              Server.sockets st !! c = Some s ∧
              truthy (sock_userId s) = true ∧
              m_user_id row = sock_userId s ∧ m_username row = sock_username s).
Proof.
  assert (Hnone : ∀ d, ∃ new : list MessageRow,
    users d = users d ∧ next_user_id d = next_user_id d ∧
    messages d = messages d ++ new ∧
    next_message_id d = next_message_id d + Z.of_nat (length new) ∧
    map History.stored_as new = [] ∧
    (∀ row, row ∈ new → False)).
  { intros d. exists []. rewrite app_nil_r. simpl.
    repeat split; try done; try lia. intros row Hrow. by apply elem_of_nil in Hrow. }
  destruct e as [c|c data|c data ok tdb tjs|c]; simpl.
  - intros [= <- <-]. simpl.
    destruct (Hnone (Server.db st)) as (new & ? & ? & ? & ? & ? & Hno).
    exists new. repeat split; try done. intros row Hrow. destruct (Hno row Hrow).
  - destruct (Server.sockets st !! c) as [s|].
    + destruct (Server.authenticate s data); [|discriminate].
      intros [= <- <-]. simpl.
      destruct (Hnone (Server.db st)) as (new & ? & ? & ? & ? & ? & Hno).
      exists new. repeat split; try done. intros row Hrow. destruct (Hno row Hrow).
    + intros [= <- <-].
      destruct (Hnone (Server.db st)) as (new & ? & ? & ? & ? & ? & Hno).
      exists new. repeat split; try done. intros row Hrow. destruct (Hno row Hrow).
  - destruct (Server.sockets st !! c) as [s|] eqn:Hs.
    + unfold Server.send_message.
      destruct (truthy (sock_userId s)) eqn:Hgate; simpl.
      * destruct data as [|m].
        -- intros [= <- <-]. simpl.
           destruct (Hnone (Server.db st)) as (new & ? & ? & ? & ? & ? & Hno).
           exists new. repeat split; try done.
           intros row Hrow. destruct (Hno row Hrow).
        -- unfold insert_message. destruct ok; simpl.
           ++ intros [= <- <-]. simpl.
              exists [mkMessage (next_message_id (Server.db st))
                        (sock_userId s) (sock_username s) m tdb].
              repeat split; try done.
              intros row Hrow. apply list_elem_of_singleton in Hrow as ->.
              exists c, s. by repeat split.
           ++ intros [= <- <-]. simpl.
              destruct (Hnone (Server.db st)) as (new & ? & ? & ? & ? & ? & Hno).
              exists new. repeat split; try done.
              intros row Hrow. destruct (Hno row Hrow).
      * intros [= <- <-]. simpl.
        destruct (Hnone (Server.db st)) as (new & ? & ? & ? & ? & ? & Hno).
        exists new. repeat split; try done.
        intros row Hrow. destruct (Hno row Hrow).
    + intros [= <- <-].
      destruct (Hnone (Server.db st)) as (new & ? & ? & ? & ? & ? & Hno).
      exists new. repeat split; try done. intros row Hrow. destruct (Hno row Hrow).
  - intros [= <- <-]. simpl.
    destruct (Hnone (Server.db st)) as (new & ? & ? & ? & ? & ? & Hno).
    exists new. repeat split; try done. intros row Hrow. destruct (Hno row Hrow).
Qed.

Lemma bound_by_step (hist : list Event) (st st' : Server.State)
    (e : Event) (fx : list Effect) :
  History.bound_by hist st →
  Server.step st e = Done st' fx →
  History.bound_by (hist ++ [e]) st'.
Proof.
  intros Hb Hstep c s Hs Hgate. apply in_or_app.
  destruct e as [c'|c' data|c' data ok tdb tjs|c']; simpl in Hstep.
  - injection Hstep as <- _. simpl in Hs.
    destruct (decide (c' = c)) as [->|Hne].
    + rewrite lookup_insert_eq in Hs. injection Hs as <-. discriminate.
    + rewrite lookup_insert_ne in Hs by done. left. by apply Hb.
  - destruct (Server.sockets st !! c') as [s0|] eqn:Hc'.
    + destruct data as [|u n]; simpl in Hstep; [discriminate|].
      injection Hstep as <- _. simpl in Hs.
      destruct (decide (c' = c)) as [->|Hne].
      * rewrite lookup_insert_eq in Hs. injection Hs as <-. right. by left.
      * rewrite lookup_insert_ne in Hs by done. left. by apply Hb.
    + injection Hstep as <- _. left. by apply Hb.
  - destruct (Server.sockets st !! c') as [s0|].
    + destruct (Server.send_message c' s0 (Server.db st) data ok tdb tjs).
      injection Hstep as <- _. left. by apply Hb.
    + injection Hstep as <- _. left. by apply Hb.
  - injection Hstep as <- _. simpl in Hs.
    destruct (decide (c' = c)) as [->|Hne].
    + by rewrite lookup_delete_eq in Hs.
    + rewrite lookup_delete_ne in Hs by done. left. by apply Hb.
Qed.

Lemma run_provenance (es : list Event) :
  ∀ (hist : list Event) (st st' : Server.State) (fx : list Effect),
  History.bound_by hist st →
  Server.run st es = Done st' fx →
  ∃ new,
    messages (Server.db st') = messages (Server.db st) ++ new ∧
    ∀ row, row ∈ new →
      truthy (m_user_id row) = true ∧
      ∃ c, In (Authenticate c (AuthObject (m_user_id row) (m_username row)))
              (hist ++ es).
Proof.
  induction es as [|e es IH]; intros hist st st' fx Hb Hrun; simpl in Hrun.
  - injection Hrun as <- _. exists []. rewrite app_nil_r.
    split; [done|]. intros row Hrow. by apply elem_of_nil in Hrow.
  - destruct (Server.step st e) as [st1 fx1|] eqn:Hstep; [|discriminate].
    destruct (Server.run st1 es) as [st2 fx2|] eqn:Hrest; [|discriminate].
    injection Hrun as <- _.
    destruct (step_log _ _ _ _ Hstep) as (new1 & _ & _ & Hm1 & _ & _ & Hfrom).
    destruct (IH (hist ++ [e]) _ _ _ (bound_by_step _ _ _ _ _ Hb Hstep) Hrest)
      as (new2 & Hm2 & Hprov).
    exists (new1 ++ new2). rewrite Hm2, Hm1, (assoc_L (++)). split; [done|].
    intros row Hrow. apply elem_of_app in Hrow as [Hrow|Hrow].
    + destruct (Hfrom row Hrow) as (c & s & _ & Hs & Hgate & -> & ->).
      split; [exact Hgate|]. exists c.
      apply in_or_app. left. by apply Hb.
    + destruct (Hprov row Hrow) as [Hgate [c Hin]].
      split; [exact Hgate|]. exists c.
      by rewrite <- (assoc_L (++)) in Hin.
Qed.

(** X10.  Where a stored identity comes from: over any run from the start,
    every row added to [messages] carries a truthy [user_id] and a
    [username] that one [authenticate] event of the run supplied
    together.  A run without [authenticate] events stores nothing. *)
Theorem stored_identity_comes_from_authenticate
    (d : Db) (es : list Event) (st : Server.State) (fx : list Effect) :
  Server.run (Server.start d) es = Done st fx →
  ∃ new,
    messages (Server.db st) = messages d ++ new ∧
    (∀ row, row ∈ new →
       truthy (m_user_id row) = true ∧
       ∃ c, In (Authenticate c (AuthObject (m_user_id row) (m_username row))) es) ∧
    ((∀ c data, ¬ In (Authenticate c data) es) → new = []).
Proof.
  intros Hrun.
  destruct (run_provenance es [] (Server.start d) st fx) as (new & Hm & Hprov).
  { intros c s Hs. simpl in Hs. by rewrite lookup_empty in Hs. }
  { exact Hrun. }
  exists new. split; [exact Hm|]. split; [exact Hprov|].
  intros Hnone. destruct new as [|row new]; [done|].
  destruct (Hprov row) as [_ [c Hin]]; [left|].
  destruct (Hnone _ _ Hin).
Qed.

Lemma stored_identity_comes_from_authenticate_witness :
  ∃ new,
    messages (Server.db (Sample.final (Sample.es_rebind ++ Sample.es_others))) =
      messages Sample.db_users ++ new ∧
    (∀ row, row ∈ new →
       truthy (m_user_id row) = true ∧
       ∃ c, In (Authenticate c (AuthObject (m_user_id row) (m_username row)))
              (Sample.es_rebind ++ Sample.es_others)) ∧
    ((∀ c data, ¬ In (Authenticate c data) (Sample.es_rebind ++ Sample.es_others)) →
     new = []).
Proof.
  apply (stored_identity_comes_from_authenticate Sample.db_users
           (Sample.es_rebind ++ Sample.es_others)
           (Sample.final (Sample.es_rebind ++ Sample.es_others))
           [InsertQuery (JNum 3) (JStr "carol") (JStr "x");
            Broadcast (EvNewMessage (JStr "carol") (JStr "x") 4)]).
  vm_compute; reflexivity.
Defined.

(** * Further properties of the revised server *)

(** ** The registry *)

(** A disconnect takes at most the entry that names the socket. *)
Lemma on_disconnect_keeps_other
    (c b : ConnId) (s : Socket) (reg : gmap JsVal ConnId) (k : JsVal) :
  b ≠ c → reg !! k = Some b →
  Revised.on_disconnect c s reg !! k = Some b.
Proof.
  intros Hbc Hk. unfold Revised.on_disconnect.
  destruct (truthy (sock_userId s)); [|exact Hk].
  case_bool_decide as Hown; [|exact Hk].
  rewrite lookup_delete_ne; [exact Hk|]. intros <-. congruence.
Qed.

Lemma close_sockets (st : Revised.State) (c b : ConnId) :
  Revised.sockets (Revised.close st c) !! b =
  if decide (b = c) then None else Revised.sockets st !! b.
Proof.
  unfold Revised.close.
  destruct (Revised.sockets st !! c) as [s|] eqn:Hc; simpl.
  - destruct (decide (b = c)) as [->|Hne].
    + apply lookup_delete_eq.
    + by apply lookup_delete_ne.
  - destruct (decide (b = c)) as [->|Hne]; done.
Qed.

Lemma close_keeps_other_entry (st : Revised.State) (c b : ConnId) (k : JsVal) :
  b ≠ c → Revised.userSockets st !! k = Some b →
  Revised.userSockets (Revised.close st c) !! k = Some b.
Proof.
  intros Hbc Hk. unfold Revised.close.
  destruct (Revised.sockets st !! c) as [s|]; simpl; [|exact Hk].
  by apply on_disconnect_keeps_other.
Qed.

Lemma close_registered (st : Revised.State) (c : ConnId) :
  Registry.registered st → Registry.registered (Revised.close st c).
Proof.
  intros Hreg b s Hb Hgate. rewrite close_sockets in Hb.
  destruct (decide (b = c)) as [->|Hne]; [done|].
  apply close_keeps_other_entry; [done|]. by apply Hreg.
Qed.

(** What [authenticate] leaves of the state on a well-formed payload. *)
Lemma authenticate_state (st : Revised.State) (c : ConnId) (u n : JsVal) :
  truthy u = true → truthy n = true →
  ∃ st1,
    (st1 = st ∨
     ∃ old, old ≠ c ∧ Revised.userSockets st !! u = Some old ∧
            is_Some (Revised.sockets st !! old) ∧ st1 = Revised.close st old) ∧
    ((∀ old, Revised.userSockets st !! u = Some old →
             is_Some (Revised.sockets st !! old) → old ≠ c →
             st1 = Revised.close st old)) ∧
    fst (Revised.authenticate st c (AuthObject u n)) =
      Revised.mkState (<[c := mkSocket u n]> (Revised.sockets st1))
                      (<[u := c]> (Revised.userSockets st1))
                      (Revised.db st1).
Proof.
  intros Hu Hn. unfold Revised.authenticate, Revised.supersede.
  rewrite Hu, Hn. simpl.
  destruct (Revised.userSockets st !! u) as [old|] eqn:Hold.
  - destruct (Revised.sockets st !! old) as [so|] eqn:Hso.
    + destruct (String.eqb_spec old c) as [->|Hne]; simpl.
      * exists st. split; [by left|]. split; [|done].
        intros old' [= <-] _ Hne. done.
      * exists (Revised.close st old). split; [|split; [|done]].
        -- right. exists old. by eauto.
        -- by intros old' [= <-] _ _.
    + exists st. split; [by left|]. split; [|done].
      intros old' [= <-] [? Hlive] _. congruence.
  - exists st. split; [by left|]. split; [|done]. by intros old' [=].
Qed.

Lemma authenticate_registered (st : Revised.State) (c : ConnId) (data : AuthPayload) :
  Registry.registered st →
  Registry.registered (fst (Revised.authenticate st c data)).
Proof.
  intros Hreg.
  destruct data as [|u n]; [exact Hreg|].
  destruct (truthy u) eqn:Hu;
    [|unfold Revised.authenticate; by rewrite Hu].
  destruct (truthy n) eqn:Hn;
    [|unfold Revised.authenticate; by rewrite Hu, Hn].
  destruct (authenticate_state st c u n Hu Hn) as (st1 & Hst1 & Hmust & ->).
  intros b s Hb Hgate. simpl in *.
  destruct (decide (b = c)) as [->|Hbc].
  - rewrite lookup_insert_eq in Hb. injection Hb as <-. simpl.
    apply lookup_insert_eq.
  - rewrite lookup_insert_ne in Hb by done.
    assert (Hlive : Revised.sockets st !! b = Some s ∧
                    Revised.userSockets st1 !! sock_userId s = Some b).
    { destruct Hst1 as [->|(old & _ & _ & _ & ->)].
      - split; [exact Hb|]. by apply Hreg.
      - rewrite close_sockets in Hb.
        destruct (decide (b = old)) as [->|Hne]; [done|].
        split; [exact Hb|]. apply close_keeps_other_entry; [done|]. by apply Hreg. }
    destruct Hlive as [Hb0 Hentry].
    destruct (decide (sock_userId s = u)) as [Heq|Hne].
    + (* the user of [b] is the one [c] registers: [b] was superseded *)
      pose proof (Hreg b s Hb0 Hgate) as Hold. rewrite Heq in Hold.
      rewrite (Hmust b Hold (mk_is_Some _ _ Hb0) Hbc) in Hb.
      rewrite close_sockets in Hb. by rewrite decide_True in Hb.
    + by rewrite lookup_insert_ne.
Qed.

Lemma step_registered (st : Revised.State) (e : Event) :
  Registry.registered st → Registry.registered (fst (Revised.step st e)).
Proof.
  intros Hreg. destruct e as [c|c data|c data ok tdb tjs|c]; simpl.
  - intros b s Hb Hgate. simpl in *.
    destruct (decide (b = c)) as [->|Hne].
    + rewrite lookup_insert_eq in Hb. injection Hb as <-. discriminate.
    + rewrite lookup_insert_ne in Hb by done. by apply Hreg.
  - destruct (Revised.sockets st !! c); [|exact Hreg].
    by apply authenticate_registered.
  - destruct (Revised.sockets st !! c) as [s|]; [|exact Hreg].
    destruct (Revised.send_message c s (Revised.db st) data ok tdb).
    exact Hreg.
  - by apply close_registered.
Qed.

Lemma run_registered (es : list Event) : ∀ st,
  Registry.registered st → Registry.registered (fst (Revised.run st es)).
Proof.
  induction es as [|e es IH]; intros st Hreg; simpl; [exact Hreg|].
  pose proof (step_registered st e Hreg) as Hstep.
  destruct (Revised.step st e) as [st1 fx1]. simpl in Hstep.
  specialize (IH st1 Hstep).
  destruct (Revised.run st1 es) as [st2 fx2]. exact IH.
Qed.

(** X11.  One live connection per user: after any run of the revised
    server from a state where the registry names every bound socket (its
    start is one), two live sockets that hold the same truthy [userId] are
    the same connection, and the registry names it. *)
Theorem revised_one_live_connection_per_user
    (st st' : Revised.State) (es : list Event) (fx : list Effect)
    (c1 c2 : ConnId) (s1 s2 : Socket) :
  Registry.registered st →
  Revised.run st es = (st', fx) →
  Revised.sockets st' !! c1 = Some s1 →
  Revised.sockets st' !! c2 = Some s2 →
  truthy (sock_userId s1) = true →
  sock_userId s1 = sock_userId s2 →
  c1 = c2 ∧ Revised.userSockets st' !! sock_userId s1 = Some c1.
Proof.
  intros Hreg Hrun H1 H2 Hgate Hsame.
  pose proof (run_registered es st Hreg) as Hinv. rewrite Hrun in Hinv.
  simpl in Hinv.
  pose proof (Hinv c1 s1 H1 Hgate) as He1.
  assert (Hgate2 : truthy (sock_userId s2) = true) by (by rewrite <- Hsame).
  pose proof (Hinv c2 s2 H2 Hgate2) as He2.
  rewrite <- Hsame in He2. split; [congruence|exact He1].
Qed.

Lemma revised_one_live_connection_per_user_witness :
  "B" = "B" ∧
  Revised.userSockets (Sample.revised_final Sample.es_tabs) !! JNum 1 = Some "B".
Proof.
  apply (revised_one_live_connection_per_user Sample.revised_boot
           (Sample.revised_final Sample.es_tabs) Sample.es_tabs
           [Emit "A" (EvAuthenticated true); Emit "A" (EvAuthenticated true);
            ForceDisconnect "A"; Emit "B" (EvAuthenticated true)]
           "B" "B" (mkSocket (JNum 1) (JStr "alice"))
           (mkSocket (JNum 1) (JStr "alice"))).
  - intros c s Hs. simpl in Hs. by rewrite lookup_empty in Hs.
  - vm_compute; reflexivity.
  - vm_compute; reflexivity.
  - vm_compute; reflexivity.
  - reflexivity.
  - reflexivity.
Defined.

(** X12.  What a disconnect does to the registry: the entry of the user
    goes when it names the socket that closes and stays when it names
    another one (the belated disconnect of a superseded connection does
    not evict the newer one); the socket leaves the live connections, and
    every other socket and the database are as before. *)
Theorem revised_disconnect_removes_own_entry_only
    (st : Revised.State) (a : ConnId) :
  (∀ u b, b ≠ a → Revised.userSockets st !! u = Some b →
          Revised.userSockets (fst (Revised.step st (Disconnect a))) !! u = Some b) ∧
  (∀ s, Revised.sockets st !! a = Some s →
        truthy (sock_userId s) = true →
        Revised.userSockets st !! sock_userId s = Some a →
        Revised.userSockets (fst (Revised.step st (Disconnect a)))
          !! sock_userId s = None) ∧
  Revised.sockets (fst (Revised.step st (Disconnect a))) !! a = None ∧
  (∀ b, b ≠ a →
        Revised.sockets (fst (Revised.step st (Disconnect a))) !! b =
        Revised.sockets st !! b) ∧
  Revised.db (fst (Revised.step st (Disconnect a))) = Revised.db st ∧
  snd (Revised.step st (Disconnect a)) = [].
Proof.
  simpl. split; [|split; [|split; [|split; [|split]]]].
  - intros u b Hne Hu. by apply close_keeps_other_entry.
  - intros s Hs Hgate Hown. unfold Revised.close. rewrite Hs. simpl.
    unfold Revised.on_disconnect. rewrite Hgate.
    rewrite bool_decide_eq_true_2 by exact Hown. apply lookup_delete_eq.
  - rewrite close_sockets. by rewrite decide_True.
  - intros b Hne. rewrite close_sockets. by rewrite decide_False.
  - unfold Revised.close. by destruct (Revised.sockets st !! a).
  - reflexivity.
Qed.

Lemma revised_disconnect_removes_own_entry_only_witness :
  Revised.userSockets
    (fst (Revised.step (Sample.revised_final Sample.es_tabs) (Disconnect "A")))
    !! JNum 1 = Some "B" ∧
  Revised.userSockets
    (fst (Revised.step (Sample.revised_final Sample.es_tabs) (Disconnect "B")))
    !! JNum 1 = None.
Proof.
  destruct (revised_disconnect_removes_own_entry_only
              (Sample.revised_final Sample.es_tabs) "A") as (Hother & _).
  destruct (revised_disconnect_removes_own_entry_only
              (Sample.revised_final Sample.es_tabs) "B") as (_ & Hown & _).
  split.
  - apply Hother; [done|vm_compute; reflexivity].
  - apply (Hown (mkSocket (JNum 1) (JStr "alice")));
      [vm_compute; reflexivity|reflexivity|vm_compute; reflexivity].
Defined.

(** X13.  A connection that repeats its own handshake is not superseded:
    the registry already names it, so nothing is disconnected, the state
    is unchanged and the client gets the acknowledgment again. *)
Theorem revised_repeated_handshake_is_idle
    (st : Revised.State) (c : ConnId) (u n : JsVal) :
  truthy u = true → truthy n = true →
  Revised.sockets st !! c = Some (mkSocket u n) →
  Revised.userSockets st !! u = Some c →
  Revised.step st (Authenticate c (AuthObject u n)) =
    (st, [Emit c (EvAuthenticated true)]).
Proof.
  intros Hu Hn Hs Hreg. simpl. rewrite Hs.
  unfold Revised.authenticate, Revised.supersede.
  rewrite Hu, Hn. simpl. rewrite Hreg, Hs, String.eqb_refl. simpl.
  rewrite (insert_id _ _ _ Hs), (insert_id _ _ _ Hreg). by destruct st.
Qed.

Lemma revised_repeated_handshake_is_idle_witness :
  Revised.step (Sample.revised_final Sample.es_tabs)
    (Authenticate "B" (AuthObject (JNum 1) (JStr "alice"))) =
    (Sample.revised_final Sample.es_tabs, [Emit "B" (EvAuthenticated true)]).
Proof.
  apply (revised_repeated_handshake_is_idle
           (Sample.revised_final Sample.es_tabs) "B" (JNum 1) (JStr "alice")).
  - reflexivity.
  - reflexivity.
  - vm_compute; reflexivity.
  - vm_compute; reflexivity.
Defined.

(** A connection without a valid handshake holds a new socket. *)
Lemma run_unbound (c : ConnId) (es : list Event) : ∀ st,
  (∀ s, Revised.sockets st !! c = Some s → s = new_socket) →
  Registry.no_valid_handshake c es →
  ∀ s, Revised.sockets (fst (Revised.run st es)) !! c = Some s → s = new_socket.
Proof.
  induction es as [|e es IH]; intros st Hst Hno s Hs; simpl in Hs.
  { by apply Hst. }
  destruct (Revised.step st e) as [st1 fx1] eqn:Hstep.
  destruct (Revised.run st1 es) as [st2 fx2] eqn:Hrest. simpl in Hs.
  assert (Hes : Registry.no_valid_handshake c es).
  { intros u n Hin. apply (Hno u n). by right. }
  apply (IH st1); [|exact Hes|by rewrite Hrest].
  clear IH Hrest Hs s. intros s Hs.
  destruct e as [c'|c' data|c' data ok tdb tjs|c']; simpl in Hstep.
  - injection Hstep as <- _. simpl in Hs.
    destruct (decide (c' = c)) as [->|Hne].
    + rewrite lookup_insert_eq in Hs. by injection Hs as <-.
    + rewrite lookup_insert_ne in Hs by done. by apply Hst.
  - destruct (Revised.sockets st !! c') as [s0|] eqn:Hc';
      [|injection Hstep as <- _; by apply Hst].
    destruct data as [|u n]; [injection Hstep as <- _; by apply Hst|].
    destruct (truthy u) eqn:Hu;
      [|unfold Revised.authenticate in Hstep; rewrite Hu in Hstep;
        injection Hstep as <- _; by apply Hst].
    destruct (truthy n) eqn:Hn;
      [|unfold Revised.authenticate in Hstep; rewrite Hu, Hn in Hstep;
        injection Hstep as <- _; by apply Hst].
    destruct (authenticate_state st c' u n Hu Hn) as (st0 & Hst0 & _ & Heq).
    rewrite Hstep in Heq. simpl in Heq. subst st1. simpl in Hs.
    destruct (decide (c' = c)) as [->|Hne].
    + specialize (Hno u n (or_introl eq_refl)). by rewrite Hu, Hn in Hno.
    + rewrite lookup_insert_ne in Hs by done.
      destruct Hst0 as [->|(old & _ & _ & _ & ->)]; [by apply Hst|].
      rewrite close_sockets in Hs.
      destruct (decide (c = old)); [done|by apply Hst].
  - destruct (Revised.sockets st !! c') as [s0|];
      [|injection Hstep as <- _; by apply Hst].
    destruct (Revised.send_message c' s0 (Revised.db st) data ok tdb).
    injection Hstep as <- _. by apply Hst.
  - injection Hstep as <- _. rewrite close_sockets in Hs.
    destruct (decide (c = c')); [done|by apply Hst].
Qed.

(** X14.  The gate of the revised server: on any run from its start, a
    live connection none of whose [authenticate] events came with a truthy
    [userId] and a truthy [username] answers a [send_message] by one
    [error] event to the sender; nothing is stored, nothing is broadcast
    and the state is unchanged. *)
Theorem revised_send_before_handshake_rejected
    (d : Db) (es : list Event) (st : Revised.State) (fx : list Effect)
    (c : ConnId) (socket : Socket)
    (data : SendPayload) (db_ok : bool) (db_now js_now : Z) :
  Revised.run (Revised.mkState ∅ ∅ d) es = (st, fx) →
  Revised.sockets st !! c = Some socket →
  Registry.no_valid_handshake c es →
  Revised.step st (SendMessage c data db_ok db_now js_now) =
    (st, [Emit c (EvError "Not authenticated")]).
Proof.
  intros Hrun Hlive Hno.
  assert (Hnew : socket = new_socket).
  { apply (run_unbound c es (Revised.mkState ∅ ∅ d)); [|exact Hno|by rewrite Hrun].
    intros s Hs. simpl in Hs. by rewrite lookup_empty in Hs. }
  subst socket. simpl. rewrite Hlive. simpl. by destruct st.
Qed.

Lemma revised_send_before_handshake_rejected_witness :
  Revised.step (Sample.revised_final Sample.es_unauth)
    (SendMessage "A" (SendObject (JStr "hi")) true 5 7) =
    (Sample.revised_final Sample.es_unauth, [Emit "A" (EvError "Not authenticated")]).
Proof.
  apply (revised_send_before_handshake_rejected Sample.db_users Sample.es_unauth
           (Sample.revised_final Sample.es_unauth)
           [Emit "A" (EvAuthError "Invalid authentication data")]
           "A" new_socket).
  - vm_compute; reflexivity.
  - vm_compute; reflexivity.
  - intros u n [H|[H|[]]]; inversion H; reflexivity.
Defined.

Lemma revised_second_handshake_disconnects_first_witness :
  ∃ st2,
    Revised.step (Sample.revised_final
                    [Connect "A"; Connect "B";
                     Authenticate "A" (AuthObject (JNum 1) (JStr "alice"))])
      (Authenticate "B" (AuthObject (JNum 1) (JStr "alice"))) =
      (st2, [ForceDisconnect "A"; Emit "B" (EvAuthenticated true)]) ∧
    Revised.sockets st2 !! "A" = None ∧
    Revised.sockets st2 !! "B" = Some (mkSocket (JNum 1) (JStr "alice")) ∧
    Revised.userSockets st2 !! JNum 1 = Some "B" ∧
    ∀ c, Revised.userSockets st2 !! JNum 1 = Some c → c = "B".
Proof.
  apply (revised_second_handshake_disconnects_first
           (Sample.revised_final [Connect "A"; Connect "B"])
           (Sample.revised_final
              [Connect "A"; Connect "B";
               Authenticate "A" (AuthObject (JNum 1) (JStr "alice"))])
           [Emit "A" (EvAuthenticated true)] "A" "B"
           new_socket new_socket (JNum 1) (JStr "alice") (JStr "alice")).
  - done.
  - reflexivity.
  - reflexivity.
  - reflexivity.
  - vm_compute; reflexivity.
  - vm_compute; reflexivity.
  - vm_compute; reflexivity.
Defined.

(** X15.  On the revised server the broadcast and the history agree: a
    send that passes the gate and is stored broadcasts the [username],
    [message] and [created_at] of the stored row, and [GET /messages]
    afterwards ends with the same three values when the row is the newest
    of the table. *)
Theorem revised_broadcast_agrees_with_history
    (c : ConnId) (socket : Socket) (d : Db) (message : JsVal)
    (db_now : Z) (sess : Session) :
  truthy (sock_userId socket) = true →
  truthy (sock_username socket) = true →
  truthy (sess_userId sess) = true →
  (∀ r, r ∈ messages d → m_created_at r < db_now) →
  ∃ d' older,
    Revised.send_message c socket d (SendObject message) true db_now =
      (d', [InsertQuery (sock_userId socket) (sock_username socket) message;
            Broadcast (EvNewMessage (sock_username socket) message db_now)]) ∧
    Revised.get_messages true d' sess =
      mkResponse 200
        (BRows (older ++ [mkView (sock_username socket) message db_now])).
Proof.
  intros Hu Hn Hsess Hnew.
  set (row := mkMessage (next_message_id d) (sock_userId socket)
                        (sock_username socket) message db_now).
  destruct (newest_sorts_first (map view_of (messages d)) (view_of row))
    as [rest Hsort].
  { intros y Hy. apply list_elem_of_fmap in Hy as (r & -> & Hr).
    simpl. by apply Hnew. }
  exists (Server.with_message d row), (reverse (take 99 rest)).
  split.
  - unfold Revised.send_message. by rewrite Hu, Hn.
  - unfold Revised.get_messages. rewrite Hsess. simpl.
    unfold select_recent_messages. simpl messages.
    rewrite map_app. simpl map. rewrite Hsort.
    change (take 100 (view_of row :: rest)) with (view_of row :: take 99 rest).
    by rewrite reverse_cons.
Qed.

Lemma revised_broadcast_agrees_with_history_witness :
  ∃ d' older,
    Revised.send_message "A" (mkSocket (JNum 1) (JStr "alice"))
      (mkDb [] 2 [Sample.old_row 1] 2) (SendObject (JStr "hi")) true 5 =
      (d', [InsertQuery (JNum 1) (JStr "alice") (JStr "hi");
            Broadcast (EvNewMessage (JStr "alice") (JStr "hi") 5)]) ∧
    Revised.get_messages true d' Sample.alice_session =
      mkResponse 200 (BRows (older ++ [mkView (JStr "alice") (JStr "hi") 5])).
Proof.
  apply (revised_broadcast_agrees_with_history "A"
           (mkSocket (JNum 1) (JStr "alice"))
           (mkDb [] 2 [Sample.old_row 1] 2) (JStr "hi") 5 Sample.alice_session).
  - reflexivity.
  - reflexivity.
  - reflexivity.
  - intros r Hr. apply list_elem_of_singleton in Hr as ->. simpl. lia.
Defined.

(** X16.  What the revised login hands to the client: on a well-formed
    users table a login that answered 200 puts the id and the username of
    the matching row in the body and in the session, the id is truthy, and
    [/check-auth] on that session reports the same two values. *)
Theorem revised_login_hands_out_identity
    (bcrypt_compare : JsVal → string → option bool)
    (d : Db) (sess sess' : Session) (req : Credentials) (resp : Response) :
  Accounts.users_wf d →
  Revised.login bcrypt_compare true d sess req = (sess', resp) →
  status resp = 200 →
  ∃ user,
    select_user d (username req) = Some user ∧
    bcrypt_compare (password req) (u_password user) = Some true ∧
    resp = mkResponse 200 (BObject [("success", JBool true);
                                    ("username", username req);
                                    ("userId", JNum (u_id user))]) ∧
    sess' = mkSession (JNum (u_id user)) (username req) ∧
    truthy (JNum (u_id user)) = true ∧
    Revised.check_auth sess' =
      mkResponse 200 (BObject [("authenticated", JBool true);
                               ("username", username req);
                               ("userId", JNum (u_id user))]).
Proof.
  intros (_ & _ & _ & Hrows). unfold Revised.login. simpl.
  destruct (select_user d (username req)) as [user|] eqn:Hsel;
    [|intros [= <- <-]; discriminate].
  destruct (bcrypt_compare (password req) (u_password user)) as [[|]|] eqn:Hcmp;
    [|intros [= <- <-]; discriminate..].
  intros [= <- <-] _. exists user.
  apply select_user_in in Hsel as Hin. destruct Hin as [Hin Hname].
  rewrite Forall_forall in Hrows. destruct (Hrows user Hin) as [_ Hid].
  assert (Htruthy : truthy (JNum (u_id user)) = true).
  { simpl. destruct (Z.eqb_spec (u_id user) 0); [lia|reflexivity]. }
  rewrite Hname. repeat split; try done.
  unfold Revised.check_auth. simpl sess_userId. by rewrite Htruthy.
Qed.

Lemma revised_login_hands_out_identity_witness :
  ∃ user,
    select_user Sample.db_alice (username Sample.alice) = Some user ∧
    Sample.compare (password Sample.alice) (u_password user) = Some true ∧
    mkResponse 200 (BObject [("success", JBool true); ("username", JStr "alice");
                             ("userId", JNum 1)]) =
    mkResponse 200 (BObject [("success", JBool true);
                             ("username", username Sample.alice);
                             ("userId", JNum (u_id user))]) ∧
    Sample.alice_session = mkSession (JNum (u_id user)) (username Sample.alice) ∧
    truthy (JNum (u_id user)) = true ∧
    Revised.check_auth Sample.alice_session =
      mkResponse 200 (BObject [("authenticated", JBool true);
                               ("username", username Sample.alice);
                               ("userId", JNum (u_id user))]).
Proof.
  apply (revised_login_hands_out_identity Sample.compare Sample.db_alice
           no_session Sample.alice_session Sample.alice).
  - unfold Accounts.users_wf. simpl.
    split; [apply NoDup_singleton|]. split; [apply NoDup_singleton|].
    split; [lia|]. apply Forall_singleton. simpl. split; [reflexivity|lia].
  - reflexivity.
  - reflexivity.
Defined.

(** X18.  A refused handshake costs nothing: an [authenticate] whose
    payload fails the test of the handler is answered [auth_error] and
    changes nothing, and a well-formed [authenticate] that follows on the
    same connection binds it, registers it and is acknowledged. *)
Theorem revised_retry_after_auth_error
    (st : Revised.State) (c : ConnId) (s0 : Socket)
    (bad : AuthPayload) (u n : JsVal) :
  Revised.sockets st !! c = Some s0 →
  Registry.valid_payload bad = false →
  truthy u = true → truthy n = true →
  Revised.step st (Authenticate c bad) =
    (st, [Emit c (EvAuthError "Invalid authentication data")]) ∧
  ∃ st' fx,
    Revised.run st [Authenticate c bad; Authenticate c (AuthObject u n)] =
      (st', Emit c (EvAuthError "Invalid authentication data")
            :: fx ++ [Emit c (EvAuthenticated true)]) ∧
    Revised.sockets st' !! c = Some (mkSocket u n) ∧
    Revised.userSockets st' !! u = Some c.
Proof.
  intros Hlive Hbad Hu Hn.
  assert (Hrej : Revised.step st (Authenticate c bad) =
                 (st, [Emit c (EvAuthError "Invalid authentication data")])).
  { simpl. rewrite Hlive. apply revised_invalid_authenticate_rejected.
    by destruct bad. }
  split; [exact Hrej|].
  destruct (revised_authenticate_acknowledged st c u n Hu Hn)
    as (st' & fx & Hauth & Hsock & Hreg).
  exists st', fx. split; [|by split].
  unfold Revised.run. rewrite Hrej.
  unfold Revised.step at 1. rewrite Hlive, Hauth.
  by rewrite app_nil_r.
Qed.

Lemma revised_retry_after_auth_error_witness :
  Revised.step (Sample.revised_final [Connect "A"])
    (Authenticate "A" (AuthObject (JNum 1) JUndefined)) =
    (Sample.revised_final [Connect "A"],
     [Emit "A" (EvAuthError "Invalid authentication data")]) ∧
  ∃ st' fx,
    Revised.run (Sample.revised_final [Connect "A"])
      [Authenticate "A" (AuthObject (JNum 1) JUndefined);
       Authenticate "A" (AuthObject (JNum 1) (JStr "alice"))] =
      (st', Emit "A" (EvAuthError "Invalid authentication data")
            :: fx ++ [Emit "A" (EvAuthenticated true)]) ∧
    Revised.sockets st' !! "A" = Some (mkSocket (JNum 1) (JStr "alice")) ∧
    Revised.userSockets st' !! JNum 1 = Some "A".
Proof.
  apply (revised_retry_after_auth_error (Sample.revised_final [Connect "A"])
           "A" new_socket (AuthObject (JNum 1) JUndefined)
           (JNum 1) (JStr "alice")).
  - vm_compute; reflexivity.
  - reflexivity.
  - reflexivity.
  - reflexivity.
Defined.

(** X19.  A rebound connection keeps its old entry.  When a connection
    registered for [u1] authenticates again as another user [u2], the
    handler adds the entry of [u2] and leaves the one of [u1]; the next
    handshake of another connection as [u1] then force-disconnects the
    rebound connection, and its disconnect takes the entry of [u2] with
    it. *)
Theorem revised_rebinding_leaves_stale_entry
    (st : Revised.State) (c b : ConnId) (sc sb : Socket)
    (u1 u2 n2 n3 : JsVal) :
  c ≠ b → u1 ≠ u2 →
  truthy u1 = true → truthy u2 = true → truthy n2 = true → truthy n3 = true →
  Revised.sockets st !! c = Some sc →
  Revised.userSockets st !! u1 = Some c →
  Revised.sockets (fst (Revised.step st (Authenticate c (AuthObject u2 n2))))
    !! b = Some sb →
  Revised.userSockets (fst (Revised.step st (Authenticate c (AuthObject u2 n2))))
    !! u1 = Some c ∧
  ∃ st2,
    Revised.step (fst (Revised.step st (Authenticate c (AuthObject u2 n2))))
      (Authenticate b (AuthObject u1 n3)) =
      (st2, [ForceDisconnect c; Emit b (EvAuthenticated true)]) ∧
    Revised.sockets st2 !! c = None ∧
    Revised.userSockets st2 !! u1 = Some b ∧
    Revised.userSockets st2 !! u2 = None.
Proof.
  intros Hcb Hu12 Hu1 Hu2 Hn2 Hn3 Hc Hreg.
  destruct (authenticate_state st c u2 n2 Hu2 Hn2) as (st0 & Hst0 & _ & Heq).
  assert (Hst1 : fst (Revised.step st (Authenticate c (AuthObject u2 n2))) =
    Revised.mkState (<[c := mkSocket u2 n2]> (Revised.sockets st0))
                    (<[u2 := c]> (Revised.userSockets st0))
                    (Revised.db st0)).
  { unfold Revised.step. by rewrite Hc. }
  rewrite Hst1. clear Heq Hst1. simpl Revised.sockets. simpl Revised.userSockets.
  intros Hb.
  assert (Hstale : Revised.userSockets st0 !! u1 = Some c).
  { destruct Hst0 as [->|(old & Hold & _ & _ & ->)]; [exact Hreg|].
    by apply close_keeps_other_entry. }
  split; [by rewrite lookup_insert_ne|].
  eexists. unfold Revised.step. simpl Revised.sockets. rewrite Hb.
  unfold Revised.authenticate, Revised.supersede.
  rewrite Hu1, Hn3. simpl.
  rewrite (lookup_insert_ne _ u2 u1) by done. rewrite Hstale.
  rewrite lookup_insert_eq.
  destruct (String.eqb_spec c b) as [->|_]; [done|]. simpl.
  split; [reflexivity|]. simpl.
  unfold Revised.close. simpl. rewrite lookup_insert_eq. simpl.
  unfold Revised.on_disconnect. simpl. rewrite Hu2.
  rewrite bool_decide_eq_true_2 by apply lookup_insert_eq.
  split; [|split].
  - rewrite lookup_insert_ne by done. apply lookup_delete_eq.
  - apply lookup_insert_eq.
  - rewrite lookup_insert_ne by done. apply lookup_delete_eq.
Qed.

Lemma revised_rebinding_leaves_stale_entry_witness :
  let st := Sample.revised_final
              [Connect "A"; Connect "B";
               Authenticate "A" (AuthObject (JNum 1) (JStr "alice"))] in
  Revised.userSockets
    (fst (Revised.step st (Authenticate "A" (AuthObject (JNum 2) (JStr "bob")))))
    !! JNum 1 = Some "A" ∧
  ∃ st2,
    Revised.step
      (fst (Revised.step st (Authenticate "A" (AuthObject (JNum 2) (JStr "bob")))))
      (Authenticate "B" (AuthObject (JNum 1) (JStr "alice"))) =
      (st2, [ForceDisconnect "A"; Emit "B" (EvAuthenticated true)]) ∧
    Revised.sockets st2 !! "A" = None ∧
    Revised.userSockets st2 !! JNum 1 = Some "B" ∧
    Revised.userSockets st2 !! JNum 2 = None.
Proof.
  intros st.
  apply (revised_rebinding_leaves_stale_entry st "A" "B"
           (mkSocket (JNum 1) (JStr "alice")) new_socket
           (JNum 1) (JNum 2) (JStr "bob") (JStr "alice")).
  - done.
  - done.
  - reflexivity.
  - reflexivity.
  - reflexivity.
  - reflexivity.
  - vm_compute; reflexivity.
  - vm_compute; reflexivity.
  - vm_compute; reflexivity.
Defined.

(** * The page scripts *)

Section Pages.

Variable trim : string → string.

Lemma client_run_app (p : Client.State) (i1 i2 : list Input) :
  Client.run trim p (i1 ++ i2) =
  let '(p1, o1) := Client.run trim p i1 in
  let '(p2, o2) := Client.run trim p1 i2 in
  (p2, o1 ++ o2).
Proof.
  revert p. induction i1 as [|i i1 IH]; intros p; simpl.
  - by destruct (Client.run trim p i2).
  - destruct (Client.step trim p i) as [p' o]. rewrite IH.
    destruct (Client.run trim p' i1) as [p1 o1].
    destruct (Client.run trim p1 i2) as [p2 o2].
    by rewrite (assoc_L (++)).
Qed.

(** While no acknowledgment arrives the flag stays down and no send
    leaves the page. *)
Lemma client_waits (ins : list Input) : ∀ p,
  Client.socketAuthenticated p = false →
  ¬ In Authenticated ins →
  Client.socketAuthenticated (fst (Client.run trim p ins)) = false ∧
  ∀ o, o ∈ snd (Client.run trim p ins) → is_send o = false.
Proof.
  induction ins as [|i ins IH]; intros p Hflag Hno; simpl.
  { split; [exact Hflag|]. intros o Ho. by apply elem_of_nil in Ho. }
  assert (Hstep : Client.socketAuthenticated (fst (Client.step trim p i)) = false ∧
                  ∀ o, o ∈ snd (Client.step trim p i) → is_send o = false).
  { destruct i; simpl;
      try (destruct (Client.socket p) as [[|]|]; simpl;
           (split; [done|]); intros o Ho;
           repeat (apply elem_of_cons in Ho as [->|Ho]; [done|]);
           by apply elem_of_nil in Ho).
    - destruct (response_ok r); simpl; [|split; [done|set_solver]].
      split; [|set_solver]. unfold Client.signed_in, Client.initSocket. simpl.
      by destruct (Client.socket p) as [[|]|].
    - destruct (truthy (data_prop r "authenticated")); simpl;
        [|split; [done|set_solver]].
      split; [|set_solver]. unfold Client.signed_in, Client.initSocket. simpl.
      by destruct (Client.socket p) as [[|]|].
    - destruct (Client.socket p) as [b|]; simpl; [|split; [done|set_solver]].
      split; [done|].
      destruct (truthy (Client.currentUser p) && truthy (Client.currentUserId p));
        intros o Ho; [|by apply elem_of_nil in Ho].
      by apply list_elem_of_singleton in Ho as ->.
    - exfalso. apply Hno. by left.
    - unfold Client.sendMessage. rewrite Hflag.
      destruct (String.eqb _ ""); simpl; [split; [done|set_solver]|].
      destruct (Client.socket p) as [[|]|]; simpl; (split; [done|]);
        intros o Ho; by apply list_elem_of_singleton in Ho as ->.
    - destruct fetch_ok; simpl; (split; [done|set_solver]). }
  destruct (Client.step trim p i) as [p' o1]. simpl in Hstep.
  destruct Hstep as [Hflag' Hout1].
  destruct (IH p' Hflag') as [Hflag'' Hout2].
  { intros Hin. apply Hno. by right. }
  destruct (Client.run trim p' ins) as [p'' o2]. simpl in *.
  split; [exact Hflag''|].
  intros o Ho. apply elem_of_app in Ho as [Ho|Ho]; auto.
Qed.

End Pages.

(** X20.  The page of [part_000] holds its messages back until the server
    acknowledged the handshake: from the load of the page, whatever the
    user and the network do, as long as no [authenticated] event arrived
    no [send_message] is emitted. *)
Theorem client_sends_only_after_acknowledgment
    (trim : string → string) (ins : list Input)
    (p : Client.State) (out : list Output) :
  Client.run trim Client.load ins = (p, out) →
  ¬ In Authenticated ins →
  Client.socketAuthenticated p = false ∧
  ∀ message, ToServer (EmitSendMessage message) ∉ out.
Proof.
  intros Hrun Hno.
  destruct (client_waits trim ins Client.load eq_refl Hno) as [Hflag Hout].
  rewrite Hrun in Hflag, Hout. simpl in *.
  split; [exact Hflag|]. intros message Hin.
  by specialize (Hout _ Hin).
Qed.

Lemma client_sends_only_after_acknowledgment_witness :
  Client.socketAuthenticated
    (fst (Client.run Sample.trim Client.load
            [Submitted (mkResponse 200 (BObject [("username", JStr "alice");
                                                ("userId", JNum 1)]));
             Connected; Typed "hi"; SendClicked])) = false ∧
  ∀ message,
    ToServer (EmitSendMessage message) ∉
      [ToServer (EmitAuthenticate (JNum 1) (JStr "alice"));
       ShowAlert AlertConnecting].
Proof.
  apply (client_sends_only_after_acknowledgment Sample.trim
           [Submitted (mkResponse 200 (BObject [("username", JStr "alice");
                                               ("userId", JNum 1)]));
            Connected; Typed "hi"; SendClicked]).
  - reflexivity.
  - intros [H|[H|[H|[H|[]]]]]; discriminate.
Defined.

(** ** The pages against [src/server.js] *)

Lemma get_prop_absent (o : JsObject) (k : string) :
  has_prop o k = false → get_prop o k = JUndefined.
Proof.
  induction o as [|[k' v] o IH]; simpl; [done|].
  destruct (String.eqb k' k); [done|exact IH].
Qed.

(** No answer of [src/server.js] brings a [userId] to the page. *)
Lemma server_js_answer_without_userId (i : Input) :
  Wire.from_server_js i →
  match i with
  | Submitted r | AuthChecked r => data_prop r "userId" = JUndefined
  | _ => True
  end.
Proof.
  intros [hash db_ok d sess req|compare db_ok d sess req|sess].
  - destruct (server_body_never_has_userId hash (λ _ _, None) db_ok d sess req)
      as [Hreg _].
    unfold data_prop, body_prop. unfold body_has in Hreg.
    destruct (body (snd (Server.register hash db_ok d sess req)));
      [by apply get_prop_absent|done].
  - destruct (server_body_never_has_userId (λ _, None) compare db_ok d sess req)
      as [_ Hlog].
    unfold data_prop, body_prop. unfold body_has in Hlog.
    destruct (body (snd (Server.login compare db_ok d sess req)));
      [by apply get_prop_absent|done].
  - unfold Server.check_auth. by destruct (truthy (sess_userId sess)).
Qed.

Lemma client_silent (trim : string → string) (ins : list Input) : ∀ p,
  truthy (Client.currentUserId p) = false →
  Client.socketAuthenticated p = false →
  Forall Wire.server_js_feed ins →
  ∀ o, o ∈ snd (Client.run trim p ins) →
       is_send o = false ∧ is_authenticate o = false.
Proof.
  induction ins as [|i ins IH]; intros p Hid Hflag Hfeed o Ho; simpl in Ho.
  { by apply elem_of_nil in Ho. }
  apply Forall_cons in Hfeed as [Hi Hfeed].
  assert (Hstep :
    truthy (Client.currentUserId (fst (Client.step trim p i))) = false ∧
    Client.socketAuthenticated (fst (Client.step trim p i)) = false ∧
    ∀ o, o ∈ snd (Client.step trim p i) →
         is_send o = false ∧ is_authenticate o = false).
  { destruct i; simpl in Hi; simpl; try done.
    - pose proof (server_js_answer_without_userId _ Hi) as Hr. simpl in Hr.
      destruct (response_ok r); simpl; [|repeat split; try done; set_solver].
      unfold Client.signed_in, Client.initSocket. simpl. rewrite Hr.
      destruct (Client.socket p) as [[|]|]; simpl; repeat split; try done; set_solver.
    - pose proof (server_js_answer_without_userId _ Hi) as Hr. simpl in Hr.
      destruct (truthy (data_prop r "authenticated")); simpl;
        [|repeat split; try done; set_solver].
      unfold Client.signed_in, Client.initSocket. simpl. rewrite Hr.
      destruct (Client.socket p) as [[|]|]; simpl; repeat split; try done; set_solver.
    - destruct (Client.socket p) as [b|]; simpl;
        [|repeat split; try done; set_solver].
      rewrite Hid, andb_false_r. repeat split; try done; set_solver.
    - destruct (Client.socket p) as [b|]; simpl; repeat split; try done; set_solver.
    - destruct (Client.socket p) as [b|]; simpl; [|repeat split; try done; set_solver].
      split; [done|]. split; [done|]. intros o' Ho'.
      by apply list_elem_of_singleton in Ho' as ->.
    - repeat split; try done; set_solver.
    - unfold Client.sendMessage. rewrite Hflag.
      destruct (String.eqb _ ""); simpl; [repeat split; try done; set_solver|].
      destruct (Client.socket p) as [[|]|]; simpl;
        (split; [done|]); (split; [done|]); intros o' Ho';
        by apply list_elem_of_singleton in Ho' as ->.
    - destruct fetch_ok; simpl; repeat split; try done; set_solver. }
  destruct (Client.step trim p i) as [p' o1]. simpl in Hstep.
  destruct Hstep as (Hid' & Hflag' & Hout1).
  specialize (IH p' Hid' Hflag' Hfeed).
  destruct (Client.run trim p' ins) as [p'' o2]. simpl in *.
  apply elem_of_app in Ho as [Ho|Ho]; auto.
Qed.

(** X21.  The page of [part_000] is mute against [src/server.js]: fed with
    answers of the routes of [src/server.js], which bring no [userId], and
    with the socket events that server can cause (it emits neither
    [authenticated] nor [auth_error]), the page never emits
    [authenticate] and never emits [send_message], whatever the user
    does. *)
Theorem client_mute_against_server_js
    (trim : string → string) (ins : list Input)
    (p : Client.State) (out : list Output) :
  Forall Wire.server_js_feed ins →
  Client.run trim Client.load ins = (p, out) →
  ∀ e, ToServer e ∉ out.
Proof.
  intros Hfeed Hrun e Hin.
  destruct (client_silent trim ins Client.load eq_refl eq_refl Hfeed
              (ToServer e)) as [Hsend Hauth].
  { by rewrite Hrun. }
  destruct e; discriminate.
Qed.

Lemma client_mute_against_server_js_witness :
  Forall Wire.server_js_feed
    (Sample.clicks' (snd (Server.login Sample.compare true Sample.db_alice
                            no_session Sample.alice))) ∧
  ∀ e, ToServer e ∉
    snd (Client.run Sample.trim Client.load
           (Sample.clicks' (snd (Server.login Sample.compare true Sample.db_alice
                                   no_session Sample.alice)))).
Proof.
  assert (Hfeed : Forall Wire.server_js_feed
    (Sample.clicks' (snd (Server.login Sample.compare true Sample.db_alice
                            no_session Sample.alice)))).
  { repeat (apply Forall_cons; split; [try exact I; apply Wire.answer_login|]).
    apply Forall_nil_2. }
  split; [exact Hfeed|].
  apply (client_mute_against_server_js Sample.trim
           (Sample.clicks' (snd (Server.login Sample.compare true Sample.db_alice
                                   no_session Sample.alice)))
           (fst (Client.run Sample.trim Client.load
                   (Sample.clicks' (snd (Server.login Sample.compare true
                                           Sample.db_alice no_session Sample.alice)))))).
  - exact Hfeed.
  - reflexivity.
Defined.

Lemma step_plain (st st' : Server.State) (e : Event) (fx : list Effect) :
  Server.step st e = Done st' fx → Forall (λ o, Wire.plain_effect o = true) fx.
Proof.
  destruct e as [c|c data|c data ok tdb tjs|c]; simpl.
  - intros [= _ <-]. constructor.
  - destruct (Server.sockets st !! c) as [s|]; [|intros [= _ <-]; constructor].
    destruct (Server.authenticate s data); [|discriminate].
    intros [= _ <-]. constructor.
  - destruct (Server.sockets st !! c) as [s|]; [|intros [= _ <-]; constructor].
    unfold Server.send_message.
    destruct (truthy (sock_userId s)); simpl.
    + destruct data as [|m]; [intros [= _ <-]; by repeat constructor|].
      destruct (insert_message _ _ _ _ _ _) as [[d' row]|];
        intros [= _ <-]; by repeat constructor.
    + intros [= _ <-]. by repeat constructor.
  - intros [= _ <-]. constructor.
Qed.

(** X22.  What [src/server.js] never sends: every effect of every run of
    its socket handlers is the insert of a message, an [error] event or a
    [new_message] broadcast.  No [authenticated] and no [auth_error] event
    is ever emitted, and no socket is ever disconnected by the server. *)
Theorem server_js_never_answers_a_handshake
    (st st' : Server.State) (es : list Event) (fx : list Effect) :
  Server.run st es = Done st' fx →
  Forall (λ o, Wire.plain_effect o = true) fx ∧
  (∀ c ok, Emit c (EvAuthenticated ok) ∉ fx) ∧
  (∀ c message, Emit c (EvAuthError message) ∉ fx) ∧
  (∀ c, ForceDisconnect c ∉ fx).
Proof.
  intros Hrun.
  assert (Hplain : Forall (λ o, Wire.plain_effect o = true) fx).
  { revert st st' fx Hrun. induction es as [|e es IH]; intros st st' fx Hrun;
      simpl in Hrun.
    - injection Hrun as _ <-. constructor.
    - destruct (Server.step st e) as [st1 fx1|] eqn:Hstep; [|discriminate].
      destruct (Server.run st1 es) as [st2 fx2|] eqn:Hrest; [|discriminate].
      injection Hrun as _ <-. apply Forall_app. split.
      + by eapply step_plain.
      + by eapply IH. }
  split; [exact Hplain|]. rewrite Forall_forall in Hplain.
  repeat split; intros; intros Hin; by specialize (Hplain _ Hin).
Qed.

Lemma server_js_never_answers_a_handshake_witness :
  Forall (λ o, Wire.plain_effect o = true)
    [InsertQuery (JNum 3) (JStr "carol") (JStr "x");
     Broadcast (EvNewMessage (JStr "carol") (JStr "x") 4)] ∧
  (∀ c ok, Emit c (EvAuthenticated ok) ∉
     [InsertQuery (JNum 3) (JStr "carol") (JStr "x");
      Broadcast (EvNewMessage (JStr "carol") (JStr "x") 4)]) ∧
  (∀ c message, Emit c (EvAuthError message) ∉
     [InsertQuery (JNum 3) (JStr "carol") (JStr "x");
      Broadcast (EvNewMessage (JStr "carol") (JStr "x") 4)]) ∧
  (∀ c, ForceDisconnect c ∉
     [InsertQuery (JNum 3) (JStr "carol") (JStr "x");
      Broadcast (EvNewMessage (JStr "carol") (JStr "x") 4)]).
Proof.
  apply (server_js_never_answers_a_handshake Sample.boot
           (Sample.final (Sample.es_rebind ++ Sample.es_others))
           (Sample.es_rebind ++ Sample.es_others)).
  vm_compute; reflexivity.
Defined.

(** The page of [src/public/app.js] emits [send_message] and nothing
    else. *)
Lemma old_page_only_sends (trim : string → string) (ins : list Input) : ∀ p,
  Forall (λ o, ∃ m, o = ToServer (EmitSendMessage m))
         (snd (OldClient.run trim p ins)).
Proof.
  induction ins as [|i ins IH]; intros p; simpl; [constructor|].
  assert (Hstep : Forall (λ o, ∃ m, o = ToServer (EmitSendMessage m))
                         (snd (OldClient.step trim p i))).
  { destruct i; simpl; try by constructor.
    - destruct (response_ok r); constructor.
    - destruct (truthy (data_prop r "authenticated")); constructor.
    - destruct (OldClient.socket p); constructor.
    - destruct (OldClient.socket p); constructor.
    - unfold OldClient.sendMessage.
      destruct (negb _ && _); simpl; [|constructor].
      constructor; [by eexists|constructor].
    - destruct (OldClient.socket p); [destruct fetch_ok|]; constructor. }
  destruct (OldClient.step trim p i) as [p' o1]. specialize (IH p').
  destruct (OldClient.run trim p' ins) as [p'' o2]. simpl in *.
  apply Forall_app. by split.
Qed.

(** A connection that never authenticated gets one [error] event for each
    message it sends, and nothing is stored. *)
Lemma unbound_sends_rejected (c : ConnId) (db_now js_now : Z)
    (out : list Output) (st : Server.State) :
  Forall (λ o, ∃ m, o = ToServer (EmitSendMessage m)) out →
  Server.sockets st !! c = Some new_socket →
  Server.run st (Wire.deliver c db_now js_now out) =
    Done st (replicate (length out) (Emit c (EvError "Not authenticated"))).
Proof.
  intros Hout Hc. induction Hout as [|o out [m ->] _ IH]; [reflexivity|].
  change (Wire.deliver c db_now js_now (ToServer (EmitSendMessage m) :: out))
    with (SendMessage c (SendObject (JStr m)) true db_now js_now
          :: Wire.deliver c db_now js_now out).
  assert (Hstep : Server.step st
            (SendMessage c (SendObject (JStr m)) true db_now js_now) =
          Done st [Emit c (EvError "Not authenticated")]).
  { simpl. rewrite Hc. simpl. by destruct st. }
  cbn [Server.run]. by rewrite Hstep, IH.
Qed.

(** X24.  The page of [src/public/app.js] never gets a message through
    [src/server.js]: it never emits [authenticate], so whatever the user
    does, each message the page emits on its connection is answered [Not
    authenticated]; nothing is stored and nothing is broadcast, even
    when the store would accept every insert. *)
Theorem old_page_never_gets_through
    (trim : string → string) (ins : list Input)
    (c : ConnId) (d : Db) (db_now js_now : Z) :
  (∀ o, o ∈ snd (OldClient.run trim OldClient.load ins) →
        is_authenticate o = false) ∧
  Server.run (Server.start d)
    (Connect c :: Wire.deliver c db_now js_now
                    (snd (OldClient.run trim OldClient.load ins))) =
    Done (Server.mkState {[c := new_socket]} d)
         (replicate (length (snd (OldClient.run trim OldClient.load ins)))
                    (Emit c (EvError "Not authenticated"))).
Proof.
  pose proof (old_page_only_sends trim ins OldClient.load) as Hout.
  split.
  - intros o Ho. rewrite Forall_forall in Hout.
    by destruct (Hout o Ho) as [m ->].
  - cbn [Server.run].
    change (Server.step (Server.start d) (Connect c))
      with (Done (Server.mkState (<[c := new_socket]> ∅) d) []).
    cbv beta iota.
    rewrite (unbound_sends_rejected c db_now js_now _ _ Hout).
    + by rewrite insert_empty.
    + simpl. apply lookup_insert_eq.
Qed.

Lemma old_page_never_gets_through_witness :
  (∀ o, o ∈ snd (OldClient.run Sample.trim OldClient.load
                   (Sample.clicks (mkResponse 200 (BObject [("username", JStr "alice")])))) →
        is_authenticate o = false) ∧
  Server.run (Server.start Sample.db_users)
    (Connect "A" :: Wire.deliver "A" 5 7
                      (snd (OldClient.run Sample.trim OldClient.load
                              (Sample.clicks (mkResponse 200 (BObject [("username", JStr "alice")])))))) =
    Done (Server.mkState {["A" := new_socket]} Sample.db_users)
         (replicate
            (length (snd (OldClient.run Sample.trim OldClient.load
                            (Sample.clicks (mkResponse 200 (BObject [("username", JStr "alice")]))))))
            (Emit "A" (EvError "Not authenticated"))).
Proof.
  apply (old_page_never_gets_through Sample.trim
           (Sample.clicks (mkResponse 200 (BObject [("username", JStr "alice")])))
           "A" Sample.db_users 5 7).
Defined.

(** ** The page of [part_000] against the revised server *)

(** X23.  The handshake goes through.  After a login on the revised server
    that answered 200, the page of [part_000] emits on connect an
    [authenticate] with the id and the username of the session; the
    revised server acknowledges it on a live connection; once the
    acknowledgment is in, a message the user typed is emitted trimmed,
    and the server stores and broadcasts it under the username of the
    login. *)
Theorem handshake_goes_through
    (trim : string → string)
    (bcrypt_compare : JsVal → string → option bool)
    (d : Db) (sess sess' : Session) (req : Credentials) (resp : Response)
    (st : Revised.State) (c : ConnId) (s0 : Socket)
    (text : string) (db_now js_now : Z) :
  Accounts.users_wf d →
  truthy (username req) = true →
  Revised.login bcrypt_compare true d sess req = (sess', resp) →
  status resp = 200 →
  Revised.sockets st !! c = Some s0 →
  trim text ≠ "" →
  ∃ uid p p' st1 st2 fx,
    sess' = mkSession uid (username req) ∧
    Client.run trim Client.load [Submitted resp; Connected] =
      (p, [ToServer (EmitAuthenticate uid (username req))]) ∧
    Revised.step st
      (to_event c (EmitAuthenticate uid (username req)) true db_now js_now) =
      (st1, fx ++ [Emit c (EvAuthenticated true)]) ∧
    Client.run trim p [Authenticated; Typed text; SendClicked] =
      (p', [ToServer (EmitSendMessage (trim text))]) ∧
    Revised.step st1
      (to_event c (EmitSendMessage (trim text)) true db_now js_now) =
      (st2, [InsertQuery uid (username req) (JStr (trim text));
             Broadcast (EvNewMessage (username req) (JStr (trim text)) db_now)]).
Proof.
  intros Hwf Hname Hlogin Hok Hlive Htext.
  destruct Hwf as (_ & _ & _ & Hrows).
  revert Hlogin. unfold Revised.login. simpl.
  destruct (select_user d (username req)) as [user|] eqn:Hsel;
    [|intros [= <- <-]; discriminate].
  destruct (bcrypt_compare (password req) (u_password user)) as [[|]|];
    [|intros [= <- <-]; discriminate..].
  intros [= <- <-].
  apply select_user_in in Hsel as [Hin Huser]. rewrite Huser.
  rewrite Forall_forall in Hrows. destruct (Hrows user Hin) as [_ Hid].
  assert (Hu : truthy (JNum (u_id user)) = true).
  { simpl. destruct (Z.eqb_spec (u_id user) 0); [lia|reflexivity]. }
  destruct (revised_authenticate_acknowledged st c (JNum (u_id user))
              (username req) Hu Hname) as (st1 & fx & Hauth & Hsock & _).
  assert (Hnonempty : String.eqb (trim text) "" = false).
  { by apply String.eqb_neq. }
  eexists (JNum (u_id user)), _, _, st1, _, fx.
  split; [reflexivity|]. split.
  { simpl. unfold Client.signed_in, Client.initSocket, data_prop. cbn.
    rewrite Hname. cbn. destruct (Z.eqb_spec (u_id user) 0); [lia|].
    reflexivity. }
  split.
  { simpl. by rewrite Hlive. }
  split.
  { simpl. unfold Client.sendMessage. simpl. rewrite Hnonempty. reflexivity. }
  simpl. rewrite Hsock. unfold Revised.send_message. simpl sock_userId.
  simpl sock_username. rewrite Hu, Hname. reflexivity.
Qed.

Lemma handshake_goes_through_witness :
  ∃ uid p p' st1 st2 fx,
    Sample.alice_session = mkSession uid (username Sample.alice) ∧
    Client.run Sample.trim Client.load
      [Submitted (mkResponse 200 (BObject [("success", JBool true);
                                          ("username", JStr "alice");
                                          ("userId", JNum 1)]));
       Connected] =
      (p, [ToServer (EmitAuthenticate uid (username Sample.alice))]) ∧
    Revised.step (Sample.revised_final [Connect "A"])
      (to_event "A" (EmitAuthenticate uid (username Sample.alice)) true 5 7) =
      (st1, fx ++ [Emit "A" (EvAuthenticated true)]) ∧
    Client.run Sample.trim p [Authenticated; Typed "hi"; SendClicked] =
      (p', [ToServer (EmitSendMessage (Sample.trim "hi"))]) ∧
    Revised.step st1
      (to_event "A" (EmitSendMessage (Sample.trim "hi")) true 5 7) =
      (st2, [InsertQuery uid (username Sample.alice) (JStr (Sample.trim "hi"));
             Broadcast (EvNewMessage (username Sample.alice)
                          (JStr (Sample.trim "hi")) 5)]).
Proof.
  apply (handshake_goes_through Sample.trim Sample.compare Sample.db_alice
           no_session Sample.alice_session Sample.alice
           (mkResponse 200 (BObject [("success", JBool true);
                                     ("username", JStr "alice");
                                     ("userId", JNum 1)]))
           (Sample.revised_final [Connect "A"]) "A" new_socket "hi" 5 7).
  - unfold Accounts.users_wf. simpl.
    split; [apply NoDup_singleton|]. split; [apply NoDup_singleton|].
    split; [lia|]. apply Forall_singleton. simpl. split; [reflexivity|lia].
  - reflexivity.
  - reflexivity.
  - reflexivity.
  - vm_compute; reflexivity.
  - discriminate.
Defined.
